(** * GW1NR-9 logic analyzer: host-side driver, verified model

    Shallow embedding of the acquisition-and-analysis pipeline of
    [examples/read_data.py] and of the stand-alone configuration scripts
    [examples/set_sample_rate.py] and [examples/set_duty_cycle.py].

    Conventions of the embedding:
    - a Python [int] is a [Z]; a byte is a [Z] in [0, 255];
    - a Python [float] is a rational [Q]: float arithmetic is taken at its
      exact value, so [a / b] is the exact quotient, without the rounding of
      binary64; a result beyond the binary64 range is an infinity, on which
      [int] and [round] raise.  [int(x)] truncates towards zero and
      [round(x)] rounds to the nearest integer, ties to the even one, as
      Python 3 does;
    - a raised exception is a value of the result type ([None] or a
      dedicated constructor);
    - bytes written to the serial port are returned as part of the result. *)

From Stdlib Require Import ZArith QArith Qround Qabs Lia Lqa Sorted.
From Stdlib Require PrimFloat FloatOps SpecFloat.
From stdpp Require Import base list strings pretty.

Local Open Scope Z_scope.

(** ** Constants of [read_data.py] *)

Definition CMD_START : Z := 0x01.
Definition CMD_STOP : Z := 0x02.
Definition CMD_TRIGGER : Z := 0x04.
Definition CMD_CONFIG : Z := 0x05.
Definition CMD_SET_FREQ : Z := 0x06.
Definition CMD_SET_SAMPLE_RATE : Z := 0x07.
Definition CMD_SET_DUTY : Z := 0x08.

Definition SYS_CLK_FREQ : Z := 27000000.
Definition DEFAULT_SAMPLE_RATE : Z := 100000.
Definition BUFFER_SIZE : Z := 49152.
Definition CHANNELS : nat := 8.

(** ** Channel demultiplexer: [parse_channels] *)

Module Demux.

(** [bit = (byte >> ch) & 1] *)
Definition channel_bit (byte : Z) (ch : nat) : Z :=
  Z.land (Z.shiftr byte (Z.of_nat ch)) 1.

(** [channels[ch].append(bit)] *)
Definition append_bit (byte : Z) (channels : list (list Z)) (ch : nat)
  : list (list Z) :=
  alter (λ plane, plane ++ [channel_bit byte ch]) ch channels.

(** [for ch in range(CHANNELS): ...] *)
Definition parse_byte (channels : list (list Z)) (byte : Z) : list (list Z) :=
  foldl (append_bit byte) channels (seq 0 CHANNELS).

(** [channels = [[] for _ in range(CHANNELS)]; for byte in data: ...] *)
Definition parse_channels (data : list Z) : list (list Z) :=
  foldl parse_byte (replicate CHANNELS []) data.

(** Recombination of the planes: sample [j] is rebuilt by putting the value
    of channel [c] at bit position [c]. *)
Definition recombine_sample (channels : list (list Z)) (j : nat) : Z :=
  foldr (λ c acc, Z.lor (Z.shiftl (default 0 (channels !! c ≫= (.!! j))) (Z.of_nat c)) acc)
        0 (seq 0 CHANNELS).

(** The same on a single byte: its eight bits put back in place. *)
Definition recombine_byte (b : Z) : Z :=
  foldr (λ c acc, Z.lor (Z.shiftl (channel_bit b c) (Z.of_nat c)) acc) 0 (seq 0 CHANNELS).

Definition recombine (channels : list (list Z)) : list Z :=
  map (recombine_sample channels) (seq 0 (length (default [] (channels !! 0%nat)))).

(** The planes in closed form: plane [c] is the list of bit [c] of each byte. *)
Definition plane_of (data : list Z) (ch : nat) : list Z :=
  map (λ byte, channel_bit byte ch) data.

Definition is_byte (b : Z) : Prop := 0 <= b < 256.

End Demux.


(** ** Python primitives used by the driver *)

Module Py.

(** Exceptions the modelled functions can raise. *)
Inductive exn : Set :=
| ZeroDivisionError
| OverflowError
| StructError
| IndexError.

(** The result of a call: a value, or a raised exception. *)
Inductive outcome (A : Type) : Type :=
| Returned (value : A)
| Raised (e : exn).
Arguments Returned {A} value.
Arguments Raised {A} e.

(** [int(x)] on a float: truncation towards zero. *)
Definition int (x : Q) : Z := Z.quot (Qnum x) (Z.pos (Qden x)).

(** [round(x)] on a float: nearest integer, a tie goes to the even one. *)
Definition round (x : Q) : Z :=
  let f := Qfloor x in
  match Qcompare (x - inject_Z f)%Q (1 # 2)%Q with
  | Lt => f
  | Gt => f + 1
  | Eq => if Z.even f then f else f + 1
  end.

(** A float operation whose exact result is [x] gives an infinity when [x]
    is beyond the binary64 range, that is from [2^1024 - 2^970] on; [int] and
    [round] raise [OverflowError] on an infinity. *)
Definition float_overflow : Q := inject_Z (2 ^ 1024 - 2 ^ 970).

Definition is_inf (x : Q) : bool := Qle_bool float_overflow (Qabs x).

(** [a > b] on floats. *)
Definition gtb (a b : Q) : bool := negb (Qle_bool a b).

(** Little-endian bytes of a value: [n] bytes, least significant first. *)
Fixpoint le_bytes (n : nat) (v : Z) : list Z :=
  match n with
  | O => []
  | S n' => v mod 256 :: le_bytes n' (v / 256)
  end.

(** One field of a [struct.pack] format: ['B'], ['H'] and ['I'] are unsigned
    fields of 1, 2 and 4 bytes. *)
Inductive field : Set := B | H | I.

Definition field_size (f : field) : nat :=
  match f with B => 1 | H => 2 | I => 4 end%nat.

(** [struct.pack] raises [struct.error] on a value outside the field's range. *)
Definition pack_field (f : field) (v : Z) : option (list Z) :=
  if (0 <=? v) && (v <? 2 ^ (8 * Z.of_nat (field_size f)))
  then Some (le_bytes (field_size f) v)
  else None.

(** [struct.pack('<...', v1, ..., vn)]: little-endian, no padding. *)
Fixpoint pack (fields : list (field * Z)) : option (list Z) :=
  match fields with
  | [] => Some []
  | (f, v) :: rest =>
      match pack_field f v, pack rest with
      | Some bs, Some bs' => Some (bs ++ bs')
      | _, _ => None
      end
  end.

(** Decoding of a little-endian field, used to state what was encoded. *)
Fixpoint le_value (bs : list Z) : Z :=
  match bs with
  | [] => 0
  | b :: rest => b + 256 * le_value rest
  end.

End Py.

(** ** Serial port *)

(** What a function wrote to the port, frame by frame, and how it ended. *)
Record call (A : Type) : Type := Call {
  written : list (list Z);
  ended : Py.outcome A
}.
Arguments Call {A} written ended.
Arguments written {A} c.
Arguments ended {A} c.

(** [send_command]: [ser.write(bytes([cmd]) + data)] *)
Definition send_command (cmd : Z) (data : list Z) : list Z := cmd :: data.

(** ** Command encoder *)

(** *** The encoders of [read_data.py] *)

Module ReadData.

(** [set_sample_rate]:
    [divider = round(SYS_CLK_FREQ / target_sample_rate_hz)]
    [divider = max(1, min(int(divider), 0xFFFFFFFF))] *)
Definition sample_rate_divider (target_sample_rate_hz : Q) : Z :=
  let divider := Py.round (inject_Z SYS_CLK_FREQ / target_sample_rate_hz)%Q in
  Z.max 1 (Z.min divider 0xFFFFFFFF).

Definition set_sample_rate (target_sample_rate_hz : Q) : call Q :=
  if Qeq_bool target_sample_rate_hz 0 then Call [] (Py.Raised Py.ZeroDivisionError)
  else if Py.is_inf (inject_Z SYS_CLK_FREQ / target_sample_rate_hz)%Q
  then Call [] (Py.Raised Py.OverflowError)
  else
    let divider := sample_rate_divider target_sample_rate_hz in
    match Py.pack [(Py.I, divider)] with
    | None => Call [] (Py.Raised Py.StructError)
    | Some divider_bytes =>
        Call [send_command CMD_SET_SAMPLE_RATE divider_bytes]
             (Py.Returned (inject_Z SYS_CLK_FREQ / inject_Z divider)%Q)
    end.

(** [set_duty_cycle]:
    [period_cycles = int(27_000_000 / target_freq_hz)]
    [duty_high_cycles = int(period_cycles * duty_ratio)]
    [duty_high_cycles = max(1, min(duty_high_cycles, period_cycles - 1))] *)
Definition period_cycles (target_freq_hz : Q) : Z :=
  Py.int (27000000 / target_freq_hz)%Q.

Definition duty_high_cycles (target_freq_hz duty_ratio : Q) : Z :=
  let period_cycles := period_cycles target_freq_hz in
  let duty_high_cycles := Py.int (inject_Z period_cycles * duty_ratio)%Q in
  Z.max 1 (Z.min duty_high_cycles (period_cycles - 1)).

Definition set_duty_cycle (target_freq_hz duty_ratio : Q) : call (Q * Z) :=
  if Qeq_bool target_freq_hz 0 then Call [] (Py.Raised Py.ZeroDivisionError)
  else if Py.is_inf (27000000 / target_freq_hz)%Q
  then Call [] (Py.Raised Py.OverflowError)
  else
    let period_cycles := period_cycles target_freq_hz in
    if Py.is_inf (inject_Z period_cycles * duty_ratio)%Q
    then Call [] (Py.Raised Py.OverflowError)
    else
      let duty_high_cycles := duty_high_cycles target_freq_hz duty_ratio in
      match Py.pack [(Py.I, duty_high_cycles)] with
      | None => Call [] (Py.Raised Py.StructError)
      | Some duty_bytes =>
          let sent := [send_command CMD_SET_DUTY duty_bytes] in
          if period_cycles =? 0 then Call sent (Py.Raised Py.ZeroDivisionError)
          else Call sent (Py.Returned
                 ((inject_Z duty_high_cycles / inject_Z period_cycles)%Q,
                  duty_high_cycles))
      end.

(** Trigger type 0 with an empty mask is the immediate trigger: no trigger
    is used and no pre-trigger count is sent. *)
Definition Immediate : Z := 0.

(** [configure_trigger]: the payload of the [CMD_CONFIG] frame. *)
Definition trigger_config_data (trigger_type trigger_mask trigger_pattern
                                pre_trigger_count : Z) : option (list Z) :=
  if (trigger_type =? 0) && (trigger_mask =? 0)
  then Py.pack [(Py.B, trigger_type); (Py.B, trigger_mask); (Py.B, trigger_pattern)]
  else Py.pack [(Py.B, trigger_type); (Py.B, trigger_mask); (Py.B, trigger_pattern);
                (Py.H, pre_trigger_count)].

Definition configure_trigger (trigger_type trigger_mask trigger_pattern
                              pre_trigger_count : Z) : call unit :=
  let sent := [send_command CMD_TRIGGER []] in
  match trigger_config_data trigger_type trigger_mask trigger_pattern
                            pre_trigger_count with
  | None => Call sent (Py.Raised Py.StructError)
  | Some config_data =>
      Call (sent ++ [send_command CMD_CONFIG config_data]) (Py.Returned tt)
  end.

End ReadData.

(** *** The stand-alone script [set_sample_rate.py] *)

Module SetSampleRateScript.

Definition CMD_SET_SAMPLE_RATE : Z := 0x07.
Definition SYS_CLK_FREQ : Z := 27000000.

(** [divider = int(SYS_CLK_FREQ / target_sample_rate_hz)]
    [divider = max(1, min(divider, 0xFFFFFFFF))] *)
Definition sample_rate_divider (target_sample_rate_hz : Q) : Z :=
  let divider := Py.int (inject_Z SYS_CLK_FREQ / target_sample_rate_hz)%Q in
  Z.max 1 (Z.min divider 0xFFFFFFFF).

Definition set_sample_rate (target_sample_rate_hz : Q) : call Q :=
  if Qeq_bool target_sample_rate_hz 0 then Call [] (Py.Raised Py.ZeroDivisionError)
  else if Py.is_inf (inject_Z SYS_CLK_FREQ / target_sample_rate_hz)%Q
  then Call [] (Py.Raised Py.OverflowError)
  else
    let divider := sample_rate_divider target_sample_rate_hz in
    match Py.pack [(Py.I, divider)] with
    | None => Call [] (Py.Raised Py.StructError)
    | Some divider_bytes =>
        Call [CMD_SET_SAMPLE_RATE :: divider_bytes]
             (Py.Returned (inject_Z SYS_CLK_FREQ / inject_Z divider)%Q)
    end.

End SetSampleRateScript.

(** *** The stand-alone script [set_duty_cycle.py] *)

Module SetDutyCycleScript.

Definition CMD_SET_DUTY : Z := 0x08.
Definition SYS_CLK_FREQ : Z := 27000000.

Definition period_cycles (target_freq_hz : Q) : Z :=
  Py.int (inject_Z SYS_CLK_FREQ / target_freq_hz)%Q.

Definition duty_high_cycles (target_freq_hz duty_ratio : Q) : Z :=
  let period_cycles := period_cycles target_freq_hz in
  let duty_high_cycles := Py.int (inject_Z period_cycles * duty_ratio)%Q in
  Z.max 1 (Z.min duty_high_cycles (period_cycles - 1)).

Definition set_duty_cycle (target_freq_hz duty_ratio : Q) : call (Q * Z) :=
  if Qeq_bool target_freq_hz 0 then Call [] (Py.Raised Py.ZeroDivisionError)
  else if Py.is_inf (inject_Z SYS_CLK_FREQ / target_freq_hz)%Q
  then Call [] (Py.Raised Py.OverflowError)
  else
    let period_cycles := period_cycles target_freq_hz in
    if Py.is_inf (inject_Z period_cycles * duty_ratio)%Q
    then Call [] (Py.Raised Py.OverflowError)
    else
      let duty_high_cycles := duty_high_cycles target_freq_hz duty_ratio in
      match Py.pack [(Py.I, duty_high_cycles)] with
      | None => Call [] (Py.Raised Py.StructError)
      | Some duty_bytes =>
          let sent := [CMD_SET_DUTY :: duty_bytes] in
          if period_cycles =? 0 then Call sent (Py.Raised Py.ZeroDivisionError)
          else Call sent (Py.Returned
                 ((inject_Z duty_high_cycles / inject_Z period_cycles)%Q,
                  duty_high_cycles))
      end.

End SetDutyCycleScript.

(** *** What the encoders are specified to achieve *)

(** The rate realized by a divider. *)
Definition realized_rate (divider : Z) : Q :=
  (inject_Z SYS_CLK_FREQ / inject_Z divider)%Q.




(** ** Capture receiver: [wait_for_data] *)

Module Receiver.

(** One turn of the polling loop, as seen from the transport and the clock:
    - [now]: the value of [time.time()] at the top of the turn;
    - [chunk]: the bytes [ser.read(ser.in_waiting)] returns, empty exactly
      when [ser.in_waiting] is 0;
    - [waiting_after_settle]: [ser.in_waiting] after the 200 ms settling
      sleep, read only once enough bytes have been accumulated. *)
Record poll : Type := Poll {
  now : Q;
  chunk : list Z;
  waiting_after_settle : nat
}.

(** The loop's variables. *)
Record state : Type := State {
  data : list Z;
  last_data_time : Q;
  first_data_time : option Q
}.

(** The three [break]s of the loop. *)
Inductive completion : Set := Complete | Stalled | TimedOut.

Definition no_data_timeout : Q := 5.

Section Loop.
Variable expected_size : Z.
Variable timeout : Q.
Variable start_time : Q.

(** The loop body: the next state, or the [break] taken with the data held. *)
Definition step (s : state) (p : poll) : state + completion * list Z :=
  let current_time := now p in
  if Py.gtb (current_time - start_time) timeout then inr (TimedOut, data s)
  else
    match chunk p with
    | _ :: _ =>
        let data' := data s ++ chunk p in
        let s' := State data' current_time
                    (match first_data_time s with
                     | None => Some current_time
                     | Some t => Some t
                     end) in
        if expected_size <=? Z.of_nat (length data') then
          if Nat.eqb (waiting_after_settle p) 0 then inr (Complete, data')
          else inl s'
        else inl s'
    | [] =>
        if (0 <? length (data s))%nat then
          if Py.gtb (current_time - last_data_time s) no_data_timeout
          then inr (Stalled, data s)
          else inl s
        else inl s
    end.

(** [while True: ...] over the turns observed so far. *)
Fixpoint run (s : state) (polls : list poll) : state + completion * list Z :=
  match polls with
  | [] => inl s
  | p :: rest =>
      match step s p with
      | inl s' => run s' rest
      | inr r => inr r
      end
  end.

(** [wait_for_data]: [None] while the loop has not left yet.
    [first_time] is the second reading of the clock, which initialises
    [last_data_time]. *)
Definition wait_for_data (first_time : Q) (polls : list poll)
  : option (completion * list Z) :=
  match run (State [] first_time None) polls with
  | inl _ => None
  | inr r => Some r
  end.

End Loop.

(** The bytes that arrived over a sequence of turns, in order. *)
Definition arrived (polls : list poll) : list Z := concat (map chunk polls).

End Receiver.

(** ** Waveform analyzer: [calculate_signal_frequency] *)

Module Analyzer.

(** [channel_data[i]] for an index of the scanning loop. *)
Definition sample (channel_data : list Z) (i : nat) : Z := nth i channel_data 0.

(** The body of the scanning loop: at an index where the value changes, the
    index is appended to [edges] and 1 (rising) or 0 (falling) to
    [edge_types]. *)
Definition record_edge (channel_data : list Z) (found : list Z * list Z) (i : nat)
  : list Z * list Z :=
  let '(edges, edge_types) := found in
  if sample channel_data i =? sample channel_data (i - 1)
  then (edges, edge_types)
  else (edges ++ [Z.of_nat i],
        edge_types ++ [if sample channel_data i >? sample channel_data (i - 1)
                       then 1 else 0]).

(** [for i in range(1, len(channel_data)): ...] *)
Definition detect_edges (channel_data : list Z) : list Z * list Z :=
  foldl (record_edge channel_data) ([], []) (seq 1 (length channel_data - 1)).

(** [[edges[i] for i in range(len(edges)) if edge_types[i] == ty]] *)
Definition edges_of_type (ty : Z) (edges edge_types : list Z) : list Z :=
  map (λ i, nth i edges 0)
      (List.filter (λ i, nth i edge_types 0 =? ty) (seq 0 (length edges))).

(** [for i in range(1, min(len(l), 20)): l[i] - l[i-1]] *)
Definition same_type_periods (l : list Z) : list Z :=
  map (λ i, nth i l 0 - nth (i - 1) l 0) (seq 1 (Nat.min (length l) 20 - 1)).

(** The third method: all edges, a delta between edges of different types is
    half a period and is doubled. *)
Definition all_edges_periods (edges edge_types : list Z) : list Z :=
  map (λ i, if nth i edge_types 0 =? nth (i - 1) edge_types 0
            then nth i edges 0 - nth (i - 1) edges 0
            else (nth i edges 0 - nth (i - 1) edges 0) * 2)
      (seq 1 (Nat.min (length edges) 20 - 1)).

(** The three methods in sequence, as the function applies them. *)
Definition estimate_periods (edges edge_types : list Z) : list Z :=
  let periods := [] in
  let rising_edges := edges_of_type 1 edges edge_types in
  let periods :=
    if (2 <=? length rising_edges)%nat
    then periods ++ same_type_periods rising_edges else periods in
  let periods :=
    if (length periods <? 2)%nat then
      let falling_edges := edges_of_type 0 edges edge_types in
      if (2 <=? length falling_edges)%nat
      then same_type_periods falling_edges else periods
    else periods in
  let periods :=
    if (length periods <? 2)%nat
    then all_edges_periods edges edge_types else periods in
  periods.

Definition sum (l : list Z) : Z := foldl Z.add 0 l.

Definition calculate_signal_frequency (channel_data : list Z) (sample_rate : Q)
  : Py.outcome (option Q) :=
  if (length channel_data <? 2)%nat then Py.Returned None
  else
    let '(edges, edge_types) := detect_edges channel_data in
    if (length edges <? 2)%nat then Py.Returned None
    else
      let periods := estimate_periods edges edge_types in
      if (length periods =? 0)%nat then Py.Returned None
      else
        let avg_period_samples :=
          (inject_Z (sum periods) / inject_Z (Z.of_nat (length periods)))%Q in
        if Qeq_bool sample_rate 0 then Py.Raised Py.ZeroDivisionError
        else
          let period_time := (avg_period_samples / sample_rate)%Q in
          Py.Returned (if Py.gtb period_time 0 then Some (1 / period_time)%Q
                       else None).

(** *** Vocabulary of the specification *)

(** The test of the scanning loop at index [i], and the type it records. *)
Definition changed (channel_data : list Z) (i : nat) : bool :=
  negb (sample channel_data i =? sample channel_data (i - 1)).

Definition edge_type (channel_data : list Z) (i : nat) : Z :=
  if sample channel_data i >? sample channel_data (i - 1) then 1 else 0.

(** The indices at which the scanning loop finds an edge. *)
Definition edge_indices (channel_data : list Z) : list nat :=
  List.filter (changed channel_data) (seq 1 (length channel_data - 1)).

(** The number of places where two consecutive samples differ. *)
Fixpoint value_changes (channel_data : list Z) : nat :=
  match channel_data with
  | x :: (y :: _) as rest =>
      ((if (x =? y)%Z then 0 else 1) + value_changes rest)%nat
  | _ => 0%nat
  end.

(** The number of places where a sample is greater than the one before. *)
Fixpoint rising_changes (channel_data : list Z) : nat :=
  match channel_data with
  | x :: (y :: _) as rest =>
      ((if (y >? x)%Z then 1 else 0) + rising_changes rest)%nat
  | _ => 0%nat
  end.

(** A list of indices in strictly increasing order. *)
Definition increasing (l : list Z) : Prop :=
  ∀ i j, (i < j < length l)%nat → nth i l 0 < nth j l 0.

End Analyzer.

(** ** Exporter: the body of [export_to_vcd] *)

Module Vcd.

(** The lines written after the header: [#<time>] and [<value><var>], where
    the variable of channel [i] is named [ch<i>]. *)
Inductive line : Set :=
| Timestamp (time : Z)
| ValueChange (value : Z) (channel : nat).

(** [time_step_ps = int(1e12 / sample_rate)] *)
Definition time_step_ps (sample_rate : Q) : Z :=
  Py.int (inject_Z (10 ^ 12) / sample_rate)%Q.

(** The block at time 0: the first sample of every non-empty channel. *)
Fixpoint initial_values (i : nat) (channels : list (list Z)) : list line :=
  match channels with
  | [] => []
  | c :: rest =>
      match c with
      | [] => initial_values (S i) rest
      | value :: _ => ValueChange value i :: initial_values (S i) rest
      end
  end.

(** [prev_values] after the block at time 0. *)
Definition initial_prev (channels : list (list Z)) : list (option Z) :=
  map head channels.

(** The first loop over the channels at a sample: is there a change?  It
    stops at the first one; an index past the end of a channel raises. *)
Fixpoint has_change (prev_values : list (option Z)) (channels : list (list Z))
                    (sample_idx : nat) : Py.outcome bool :=
  match channels, prev_values with
  | c :: cs, p :: ps =>
      match c !! sample_idx with
      | None => Py.Raised Py.IndexError
      | Some value =>
          if bool_decide (p = Some value) then has_change ps cs sample_idx
          else Py.Returned true
      end
  | _, _ => Py.Returned false
  end.

(** The second loop: the changed values are written and remembered. *)
Fixpoint write_changes (i : nat) (prev_values : list (option Z))
                       (channels : list (list Z)) (sample_idx : nat)
  : list line * list (option Z) * option Py.exn :=
  match channels, prev_values with
  | c :: cs, p :: ps =>
      match c !! sample_idx with
      | None => ([], p :: ps, Some Py.IndexError)
      | Some value =>
          let '(lines, ps', e) := write_changes (S i) ps cs sample_idx in
          if bool_decide (p = Some value) then (lines, p :: ps', e)
          else (ValueChange value i :: lines, Some value :: ps', e)
      end
  | _, _ => ([], prev_values, None)
  end.

(** [for sample_idx in range(1, ...)] *)
Fixpoint export_samples (time_step_ps : Z) (channels : list (list Z))
                        (prev_values : list (option Z)) (indices : list nat)
  : list line * option Py.exn :=
  match indices with
  | [] => ([], None)
  | sample_idx :: rest =>
      let current_time := Z.of_nat sample_idx * time_step_ps in
      match has_change prev_values channels sample_idx with
      | Py.Raised e => ([], Some e)
      | Py.Returned false => export_samples time_step_ps channels prev_values rest
      | Py.Returned true =>
          let '(lines, prev_values', e) :=
            write_changes 0 prev_values channels sample_idx in
          match e with
          | Some e => (Timestamp current_time :: lines, Some e)
          | None =>
              let '(lines', e') :=
                export_samples time_step_ps channels prev_values' rest in
              (Timestamp current_time :: lines ++ lines', e')
          end
      end
  end.

(** The lines of the body and the exception that ended the export, if any. *)
Definition export_body (channels : list (list Z)) (sample_rate : Q)
  : list line * option Py.exn :=
  if Qeq_bool sample_rate 0 then ([], Some Py.ZeroDivisionError)
  else if Py.is_inf (inject_Z (10 ^ 12) / sample_rate)%Q
  then ([], Some Py.OverflowError)
  else
    let time_step_ps := time_step_ps sample_rate in
    let samples := length (hd [] channels) in
    let '(lines, e) :=
      export_samples time_step_ps channels (initial_prev channels)
                     (seq 1 (samples - 1)) in
    (Timestamp 0 :: initial_values 0 channels ++ lines, e).

(** The text of a line. *)
Definition render (l : line) : string :=
  match l with
  | Timestamp time => "#" +:+ pretty time
  | ValueChange value channel => pretty value +:+ "ch" +:+ pretty channel
  end.

(** *** Vocabulary of the specification *)

(** All the channels have [samples] samples. *)
Definition rectangular (samples : nat) (channels : list (list Z)) : Prop :=
  Forall (λ c, length c = samples) channels.

(** The timestamps of a list of lines. *)
Definition timestamps (lines : list line) : list Z :=
  omap (λ l, match l with Timestamp t => Some t | _ => None end) lines.



End Vcd.

(** ** Binary64 values *)

Module Binary64.

(** The exact value of a finite binary64 number. *)
Definition value (x : PrimFloat.float) : option Q :=
  match FloatOps.Prim2SF x with
  | SpecFloat.S754_zero _ => Some 0%Q
  | SpecFloat.S754_finite s m e =>
      Some ((if s then -1 else 1) * inject_Z (Z.pos m) * Qpower 2 e)%Q
  | _ => None
  end.

Definition is_infinite (x : PrimFloat.float) : bool :=
  match FloatOps.Prim2SF x with
  | SpecFloat.S754_infinity _ => true
  | _ => false
  end.

(** The model's function [f] gives [result] on the value of [x]. *)
Definition agrees {A} (f : Q → A) (x : PrimFloat.float) (result : A) : Prop :=
  ∃ q, value x = Some q ∧ f q = result.

End Binary64.

(** ** Frequency output: [set_frequency] *)

(** [set_frequency] of [read_data.py] *)
Module SetFrequency.

(** [divider = int(27_000_000 / target_freq_hz / 2)]
    [divider = max(1, min(divider, 0xFFFFFFFF))] *)
Definition frequency_divider (target_freq_hz : Q) : Z :=
  let divider := Py.int (27000000 / target_freq_hz / 2)%Q in
  Z.max 1 (Z.min divider 0xFFFFFFFF).

Definition set_frequency (target_freq_hz : Q) : call Q :=
  if Qeq_bool target_freq_hz 0 then Call [] (Py.Raised Py.ZeroDivisionError)
  else if Py.is_inf (27000000 / target_freq_hz)%Q
  then Call [] (Py.Raised Py.OverflowError)
  else
    let divider := frequency_divider target_freq_hz in
    match Py.pack [(Py.I, divider)] with
    | None => Call [] (Py.Raised Py.StructError)
    | Some divider_bytes =>
        Call [send_command CMD_SET_FREQ divider_bytes]
             (Py.Returned (27000000 / inject_Z (divider * 2))%Q)
    end.

End SetFrequency.

(** The stand-alone script [set_frequency.py] *)
Module SetFrequencyScript.

Definition CMD_SET_FREQ : Z := 0x06.
Definition SYS_CLK_FREQ : Z := 27000000.

Definition frequency_divider (target_freq_hz : Q) : Z :=
  let divider := Py.int (inject_Z SYS_CLK_FREQ / target_freq_hz / 2)%Q in
  Z.max 1 (Z.min divider 0xFFFFFFFF).

Definition set_frequency (target_freq_hz : Q) : call Q :=
  if Qeq_bool target_freq_hz 0 then Call [] (Py.Raised Py.ZeroDivisionError)
  else if Py.is_inf (inject_Z SYS_CLK_FREQ / target_freq_hz)%Q
  then Call [] (Py.Raised Py.OverflowError)
  else
    let divider := frequency_divider target_freq_hz in
    match Py.pack [(Py.I, divider)] with
    | None => Call [] (Py.Raised Py.StructError)
    | Some divider_bytes =>
        Call [CMD_SET_FREQ :: divider_bytes]
             (Py.Returned (inject_Z SYS_CLK_FREQ / inject_Z (divider * 2))%Q)
    end.

(** The dictionary [get_frequency_info] returns, one field per key. *)
Record info : Type := Info {
  target : Q;
  divider : Z;
  actual : Q;
  error : Q;
  error_percent : Q
}.


End SetFrequencyScript.

(** [get_sample_rate_info] of [set_sample_rate.py] *)
Module SampleRateInfo.

Record info : Type := Info {
  target : Q;
  divider : Z;
  actual : Q;
  error : Q;
  error_percent : Q
}.


End SampleRateInfo.

(** ** Duty cycle: [calculate_duty_cycle] *)

Module DutyCycle.

(** [high_count = sum(channel_data)]
    [duty_cycle = (high_count / len(channel_data)) * 100] *)
Definition calculate_duty_cycle (channel_data : list Z) : option Q :=
  if (length channel_data =? 0)%nat then None
  else
    let high_count := Analyzer.sum channel_data in
    Some (inject_Z high_count / inject_Z (Z.of_nat (length channel_data)) * 100)%Q.

(** A plane of bits. *)
Definition bit_plane (channel_data : list Z) : Prop :=
  Forall (λ bit, bit = 0 ∨ bit = 1) channel_data.

End DutyCycle.

(** ** Start-up message: [wait_for_startup] *)

Module Startup.

(** [b'start'] *)
Definition marker : list Z := [115; 116; 97; 114; 116].

(** [needle in haystack] on bytes: the needle occurs as a contiguous run. *)
Fixpoint starts_with (needle haystack : list Z) : bool :=
  match needle, haystack with
  | [], _ => true
  | _ :: _, [] => false
  | a :: needle', b :: haystack' => (a =? b) && starts_with needle' haystack'
  end.

Fixpoint contains (needle haystack : list Z) : bool :=
  starts_with needle haystack
  || match haystack with
     | [] => false
     | _ :: haystack' => contains needle haystack'
     end.

(** One test of the loop condition and what the port delivers in the turn
    that follows: [now] is [time.time()], [chunk] the bytes read, empty
    exactly when [ser.in_waiting] is 0. *)
Record poll : Type := Poll {
  now : Q;
  chunk : list Z
}.

Section Loop.
Variable timeout : Q.
Variable start_time : Q.

(** One turn: the new buffer, or the value returned. *)
Definition step (buffer : list Z) (p : poll) : list Z + bool :=
  if Py.gtb timeout (now p - start_time) then
    match chunk p with
    | _ :: _ =>
        let buffer' := buffer ++ chunk p in
        if contains marker buffer' then inr true else inl buffer'
    | [] => inl buffer
    end
  else inr false.

Fixpoint run (buffer : list Z) (polls : list poll) : list Z + bool :=
  match polls with
  | [] => inl buffer
  | p :: rest =>
      match step buffer p with
      | inl buffer' => run buffer' rest
      | inr r => inr r
      end
  end.

(** [wait_for_startup]: [None] while the loop has not left yet. *)
Definition wait_for_startup (polls : list poll) : option bool :=
  match run [] polls with
  | inl _ => None
  | inr r => Some r
  end.

End Loop.

(** The bytes that arrived over a sequence of turns. *)
Definition arrived (polls : list poll) : list Z := concat (map chunk polls).

(** The occurrence of a run of bytes in a buffer. *)
Definition occurs_in (needle haystack : list Z) : Prop :=
  ∃ before after, haystack = before ++ needle ++ after.

End Startup.

(** ** Exporter: [export_to_csv], the header row and the data rows

    The comment lines before the header and the conversion to [.sr] that
    follows are left out. *)

Module Csv.

Definition batch_size : nat := Z.to_nat 10000.

(** A data row: the time in seconds, printed with nine decimals, and the
    value of every channel. *)
Record row : Type := Row {
  time_s : Q;
  values : list Z
}.

(** [header = ['time', 'CH0', ..., 'CH<n-1>']] *)
Definition header (channels : list (list Z)) : list string :=
  "time"%string :: map (λ i : nat, "CH" +:+ pretty i) (seq 0 (length channels)).

(** The row of a sample; reading past the end of a channel raises. *)
Definition csv_row (time_step : Q) (channels : list (list Z)) (sample_idx : nat)
  : option row :=
  values ← mapM (λ c : list Z, c !! sample_idx) channels;
  Some (Row (inject_Z (Z.of_nat sample_idx) * time_step)%Q values).

(** [range(0, samples, batch_size)] *)
Definition batch_starts (samples batch_size : nat) : list nat :=
  map (λ k, k * batch_size)%nat (seq 0 ((samples + batch_size - 1) / batch_size)).

(** The rows of one batch, built before any of them is written. *)
Definition batch_rows (time_step : Q) (channels : list (list Z))
                      (samples batch_size batch_start : nat) : option (list row) :=
  let batch_end := Nat.min (batch_start + batch_size) samples in
  mapM (csv_row time_step channels) (seq batch_start (batch_end - batch_start)).

(** [for batch_start in range(0, samples, batch_size): ... writer.writerows(rows)] *)
Fixpoint write_batches (time_step : Q) (channels : list (list Z))
                       (samples batch_size : nat) (starts : list nat)
  : list row * option Py.exn :=
  match starts with
  | [] => ([], None)
  | batch_start :: rest =>
      match batch_rows time_step channels samples batch_size batch_start with
      | None => ([], Some Py.IndexError)
      | Some rows =>
          let '(rows', e) := write_batches time_step channels samples batch_size rest in
          (rows ++ rows', e)
      end
  end.

(** The header row and the data rows written, and the exception that ended
    the export, if any.  [1.0 / sample_rate] is computed before the file is
    opened. *)
Definition export_to_csv (channels : list (list Z)) (sample_rate : Q)
  : list string * list row * option Py.exn :=
  let samples := length (hd [] channels) in
  if Qeq_bool sample_rate 0 then ([], [], Some Py.ZeroDivisionError)
  else
    let time_step := (1 / sample_rate)%Q in
    let '(rows, e) :=
      write_batches time_step channels samples batch_size
                    (batch_starts samples batch_size) in
    (header channels, rows, e).

(** The row of sample [i] when every channel has it. *)
Definition row_of (sample_rate : Q) (channels : list (list Z)) (i : nat) : row :=
  Row (inject_Z (Z.of_nat i) * (1 / sample_rate))%Q (map (λ c, nth i c 0) channels).

End Csv.

(** ** Reading the body of a VCD file back *)

(** What a viewer of the file holds: the last value written for every
    variable, in the blocks up to a given time. *)
Module VcdReader.
Import Vcd.




End VcdReader.

(** ** Command line: [parse_sample_rate] *)

From Stdlib Require Import Ascii.

(** A string is the list of its characters; the strings of the command line
    are taken to be ASCII, where [str.strip] and [str.upper] are as below.
    Python's [float] and the product of a float and an integer are
    parameters, [None] standing for the [ValueError] of [float]. *)
Module ParseSampleRate.

Definition str (s : string) : list ascii := String.list_ascii_of_string s.

(** The white space of [str.strip]: tab to carriage return, the four
    separators and the blank. *)
Definition is_space (a : ascii) : bool :=
  let n := nat_of_ascii a in
  ((9 <=? n) && (n <=? 13) || (28 <=? n) && (n <=? 32))%nat.

Fixpoint lstrip (s : list ascii) : list ascii :=
  match s with
  | [] => []
  | a :: rest => if is_space a then lstrip rest else s
  end.

Definition strip (s : list ascii) : list ascii := rev (lstrip (rev (lstrip s))).

Definition upper_char (a : ascii) : ascii :=
  let n := nat_of_ascii a in
  if ((97 <=? n) && (n <=? 122))%nat then ascii_of_nat (n - 32) else a.

Definition upper (s : list ascii) : list ascii := map upper_char s.

Fixpoint str_eqb (s t : list ascii) : bool :=
  match s, t with
  | [], [] => true
  | a :: s', b :: t' => Ascii.eqb a b && str_eqb s' t'
  | _, _ => false
  end.

Fixpoint startswith (s prefix : list ascii) {struct prefix} : bool :=
  match prefix, s with
  | [], _ => true
  | _ :: _, [] => false
  | a :: prefix', b :: s' => Ascii.eqb a b && startswith s' prefix'
  end.

Definition endswith (s suffix : list ascii) : bool :=
  startswith (rev s) (rev suffix).

(** [s[:-n]] *)
Definition drop_last (n : nat) (s : list ascii) : list ascii :=
  take (length s - n) s.

(** [key in presets] and [presets[key]] *)
Fixpoint preset (presets : list (string * Z)) (key : list ascii) : option Z :=
  match presets with
  | [] => None
  | (name, value) :: rest =>
      if str_eqb key (str name) then Some value else preset rest key
  end.

(** The table of [read_data.py] *)
Definition presets : list (string * Z) :=
  [("27M", 27000000); ("13.5M", 13500000); ("9M", 9000000);
   ("6.75M", 6750000); ("5.4M", 5400000); ("1M", 1000000);
   ("500K", 500000); ("100K", 100000); ("50K", 50000); ("10K", 10000);
   ("1K", 1000)]%string.

(** The table of [set_sample_rate.py] *)
Definition script_presets : list (string * Z) :=
  [("27M", 27000000); ("13.5M", 13500000); ("1M", 1000000);
   ("500K", 500000); ("100K", 100000); ("50K", 50000); ("10K", 10000);
   ("1K", 1000)]%string.

Section Parser.
Context {F : Type}.
Variable float : list ascii → option F.
Variable times : F → Z → F.
Variable table : list (string * Z).

(** The value returned is the integer of the table or a float. *)
Definition parse (rate_str : list ascii) : option (Z + F) :=
  let rate_str := upper (strip rate_str) in
  match preset table rate_str with
  | Some value => Some (inl value)
  | None =>
      if endswith rate_str (str "M") then
        f ← float (drop_last 1 rate_str); Some (inr (times f 1000000))
      else if endswith rate_str (str "K") then
        f ← float (drop_last 1 rate_str); Some (inr (times f 1000))
      else if endswith rate_str (str "HZ") then
        f ← float (drop_last 2 rate_str); Some (inr f)
      else
        f ← float rate_str; Some (inr f)
  end.

End Parser.

(** [parse_sample_rate] of [read_data.py] *)
Definition parse_sample_rate {F : Type} (float : list ascii → option F)
                             (times : F → Z → F) (rate_str : list ascii)
  : option (Z + F) :=
  parse float times presets rate_str.

(** [parse_sample_rate] of [set_sample_rate.py] *)
Definition script_parse_sample_rate {F : Type} (float : list ascii → option F)
                                    (times : F → Z → F) (rate_str : list ascii)
  : option (Z + F) :=
  parse float times script_presets rate_str.

(** *** Vocabulary *)

(** No float literal ends in [M] or [K]: [float] rejects such strings. *)
Definition rejects_unit_letters {F : Type} (float : list ascii → option F) : Prop :=
  ∀ s, endswith s (str "M") = true ∨ endswith s (str "K") = true → float s = None.

(** A reader of unsigned decimal integers, an instance of such a [float]. *)
Fixpoint digits (value : Z) (s : list ascii) : option Z :=
  match s with
  | [] => Some value
  | a :: rest =>
      let n := nat_of_ascii a in
      if ((48 <=? n) && (n <=? 57))%nat
      then digits (10 * value + Z.of_nat (n - 48)) rest
      else None
  end.

Definition decimal (s : list ascii) : option Q :=
  match s with
  | [] => None
  | _ :: _ => value ← digits 0 s; Some (inject_Z value)
  end.

End ParseSampleRate.

(** ** Test pattern: [send_test_data_continuous] *)

Module TestData.

(** One pass of the loop as the environment shows it: whether the stop flag
    is set, [time.time()] at the time-out check, and what [ser.write]
    returns, [None] when the [try] block raises. *)
Record pass : Type := Pass {
  stop_set : bool;
  now : Q;
  bytes_written : option Z
}.

Record state : Type := State {
  total_sent : Z;
  base_index : Z
}.

(** [bytes([(base_index + i) % 256 for i in range(256)])] *)
Definition test_data (base_index : Z) : list Z :=
  map (λ i : nat, (base_index + Z.of_nat i) mod 256) (seq 0 256).

Section Loop.
Variable start_time : Q.

(** One pass: the block handed to [ser.write], if the pass gets there, and
    the state of the next pass, [None] when the loop is left. *)
Definition step (s : state) (p : pass) : list (list Z) * option state :=
  if stop_set p then ([], None)
  else if Py.gtb (now p - start_time)%Q 300 then ([], None)
  else
    let test_data := test_data (base_index s) in
    match bytes_written p with
    | None => ([test_data], None)
    | Some bytes_written =>
        if 0 <? bytes_written
        then ([test_data],
              Some (State (total_sent s + bytes_written)
                          (base_index s + Z.of_nat (length test_data))))
        else ([test_data], Some s)
    end.

(** The blocks handed to the port and the state the loop is left in, or
    has reached when the passes are used up. *)
Fixpoint run (s : state) (passes : list pass) : list (list Z) * state :=
  match passes with
  | [] => ([], s)
  | p :: rest =>
      match step s p with
      | (blocks, None) => (blocks, s)
      | (blocks, Some s') =>
          let '(more, final) := run s' rest in (blocks ++ more, final)
      end
  end.

Definition send_test_data_continuous (passes : list pass)
  : list (list Z) * state :=
  run (State 0 0) passes.

End Loop.

(** *** Vocabulary *)

(** The bytes 0, 1, ..., 255. *)
Definition ramp : list Z := map Z.of_nat (seq 0 256).

End TestData.
(** * Properties

    ** Channel demultiplexer *)

Section DemuxFacts.
Import Demux.

Lemma parse_byte_eight p0 p1 p2 p3 p4 p5 p6 p7 b :
  parse_byte [p0; p1; p2; p3; p4; p5; p6; p7] b =
  [p0 ++ [channel_bit b 0]; p1 ++ [channel_bit b 1]; p2 ++ [channel_bit b 2];
   p3 ++ [channel_bit b 3]; p4 ++ [channel_bit b 4]; p5 ++ [channel_bit b 5];
   p6 ++ [channel_bit b 6]; p7 ++ [channel_bit b 7]].
Proof. reflexivity. Qed.

Lemma foldl_parse_byte_planes pre data :
  foldl parse_byte (map (plane_of pre) (seq 0 CHANNELS)) data =
  map (plane_of (pre ++ data)) (seq 0 CHANNELS).
Proof.
  revert pre. induction data as [|b data IH]; intros pre.
  - now rewrite app_nil_r.
  - cbn [foldl]. replace (pre ++ b :: data) with ((pre ++ [b]) ++ data)
      by now rewrite <- app_assoc.
    rewrite <- IH. f_equal.
    cbn [CHANNELS seq map]. rewrite parse_byte_eight.
    unfold plane_of. now rewrite !map_app.
Qed.

Lemma parse_channels_planes data :
  parse_channels data = map (plane_of data) (seq 0 CHANNELS).
Proof. exact (foldl_parse_byte_planes [] data). Qed.

Lemma channel_bit_01 b c : channel_bit b c = 0 ∨ channel_bit b c = 1.
Proof.
  unfold channel_bit. rewrite Z.land_ones with (n := 1) by lia.
  change (2 ^ 1) with 2.
  pose proof (Z.mod_pos_bound (Z.shiftr b (Z.of_nat c)) 2). lia.
Qed.

End DemuxFacts.

Section DemuxTheorems.
Import Demux.

Lemma recombine_byte_id b : is_byte b → recombine_byte b = b.
Proof.
  intros Hb.
  assert (Hall : forallb (λ n, recombine_byte (Z.of_nat n) =? Z.of_nat n)
                         (seq 0 256) = true) by (vm_compute; reflexivity).
  rewrite forallb_forall in Hall.
  specialize (Hall (Z.to_nat b)).
  rewrite Z2Nat.id in Hall by (unfold is_byte in Hb; lia).
  apply Z.eqb_eq, Hall, in_seq. unfold is_byte in Hb. lia.
Qed.

Lemma recombine_sample_planes data j b :
  data !! j = Some b →
  recombine_sample (map (plane_of data) (seq 0 CHANNELS)) j = recombine_byte b.
Proof.
  intros Hj. unfold recombine_sample, recombine_byte.
  cbn [CHANNELS seq map foldr lookup list_lookup mbind option_bind].
  unfold plane_of. rewrite !list_lookup_fmap, Hj. reflexivity.
Qed.

Lemma recombine_parse_channels buf :
  Forall is_byte buf → recombine (parse_channels buf) = buf.
Proof.
  intros Hbytes. rewrite parse_channels_planes. unfold recombine.
  replace (length (default [] (map (plane_of buf) (seq 0 CHANNELS) !! 0%nat)))
    with (length buf) by (cbn; unfold plane_of; now rewrite length_map).
  apply list_eq. intros j.
  rewrite list_lookup_fmap.
  destruct (buf !! j) as [b|] eqn:Hj.
  - rewrite lookup_seq_lt by (apply lookup_lt_Some in Hj; lia).
    cbn -[recombine_sample CHANNELS seq].
    rewrite (recombine_sample_planes _ _ _ Hj). f_equal.
    apply recombine_byte_id. rewrite Forall_lookup in Hbytes. eauto.
  - rewrite lookup_seq_ge by (apply lookup_ge_None in Hj; lia). reflexivity.
Qed.

End DemuxTheorems.

Section DemuxClaims.
Import Demux.

(** C7. [parse_channels] is a bijective reshaping of a byte sequence: putting
    bit [c] of every sample back at position [c] rebuilds the bytes; the bit
    of channel [c] at sample [j] is [(buf[j] >> c) & 1]; every plane is as
    long as the input. *)
Theorem parse_channels_reshapes (buf : list Z) :
  Forall is_byte buf →
  recombine (parse_channels buf) = buf
  ∧ (∀ c, (c < CHANNELS)%nat →
       ∃ plane, parse_channels buf !! c = Some plane
                ∧ ∀ j byte, buf !! j = Some byte →
                    plane !! j = Some (Z.land (Z.shiftr byte (Z.of_nat c)) 1))
  ∧ Forall (λ plane, length plane = length buf) (parse_channels buf).
Proof.
  intros Hbytes. split; [now apply recombine_parse_channels|].
  rewrite parse_channels_planes. split.
  - intros c Hc. exists (plane_of buf c). split.
    + rewrite list_lookup_fmap, lookup_seq_lt by exact Hc. reflexivity.
    + intros j byte Hj. unfold plane_of. now rewrite list_lookup_fmap, Hj.
  - apply Forall_fmap, Forall_forall. intros c _. cbn.
    unfold plane_of. now rewrite length_map.
Qed.

Lemma parse_channels_reshapes_witness :
  let buf := [0xA5; 0x00; 0xFF; 0x3C] in
  recombine (parse_channels buf) = buf
  ∧ parse_channels buf !! 2%nat = Some [1; 0; 1; 1]
  ∧ Forall (λ plane, length plane = 4%nat) (parse_channels buf).
Proof.
  intros buf.
  assert (Hbytes : Forall is_byte buf)
    by (repeat constructor; unfold is_byte; lia).
  destruct (parse_channels_reshapes buf Hbytes) as (Hre & _ & Hlen).
  split; [exact Hre|]. split; [reflexivity|exact Hlen].
Defined.

(** Distinct byte sequences have distinct planes. *)
Corollary parse_channels_injective (a b : list Z) :
  Forall is_byte a → Forall is_byte b →
  parse_channels a = parse_channels b → a = b.
Proof.
  intros Ha Hb Heq.
  rewrite <- (recombine_parse_channels a Ha), <- (recombine_parse_channels b Hb).
  now rewrite Heq.
Qed.

(** C9. Whatever the input, [parse_channels] returns exactly 8 planes, and
    every element of every plane is 0 or 1. *)
Theorem parse_channels_eight_bit_planes (data : list Z) :
  length (parse_channels data) = 8%nat
  ∧ Forall (Forall (λ bit, bit = 0 ∨ bit = 1)) (parse_channels data).
Proof.
  rewrite parse_channels_planes. split.
  - now rewrite length_map, length_seq.
  - apply Forall_fmap, Forall_forall. intros c _. cbn.
    unfold plane_of. apply Forall_fmap, Forall_forall. intros b _. cbn.
    apply channel_bit_01.
Qed.

End DemuxClaims.

(** ** Trigger configuration *)

Section TriggerFacts.

Lemma pack_field_in_range f v :
  0 <= v < 2 ^ (8 * Z.of_nat (Py.field_size f)) →
  Py.pack_field f v = Some (Py.le_bytes (Py.field_size f) v).
Proof.
  intros Hv. unfold Py.pack_field.
  destruct (0 <=? v) eqn:Hlo; [|lia].
  destruct (v <? 2 ^ (8 * Z.of_nat (Py.field_size f))) eqn:Hhi; [|lia].
  reflexivity.
Qed.

Lemma pack_field_out_of_range f v :
  ¬ 0 <= v < 2 ^ (8 * Z.of_nat (Py.field_size f)) → Py.pack_field f v = None.
Proof.
  intros Hv. unfold Py.pack_field.
  destruct (0 <=? v) eqn:Hlo; [|reflexivity].
  destruct (v <? 2 ^ (8 * Z.of_nat (Py.field_size f))) eqn:Hhi; [lia|reflexivity].
Qed.


Lemma le_value_le_bytes n v :
  0 <= v < 2 ^ (8 * Z.of_nat n) → Py.le_value (Py.le_bytes n v) = v.
Proof.
  revert v. induction n as [|n IH]; intros v Hv.
  - cbn in *. lia.
  - cbn [Py.le_bytes Py.le_value]. rewrite IH.
    + pose proof (Z.div_mod v 256). lia.
    + replace (8 * Z.of_nat (S n)) with (8 + 8 * Z.of_nat n) in Hv by lia.
      rewrite Z.pow_add_r in Hv by lia. change (2 ^ 8) with 256 in Hv.
      split; [apply Z.div_pos; lia|].
      apply Z.div_lt_upper_bound; lia.
Qed.

Lemma le_bytes_are_bytes n v : Forall Demux.is_byte (Py.le_bytes n v).
Proof.
  revert v. induction n as [|n IH]; intros v; cbn; constructor; [|apply IH].
  unfold Demux.is_byte. pose proof (Z.mod_pos_bound v 256). lia.
Qed.

End TriggerFacts.

Section TriggerClaims.
Import ReadData.

(** C2. The payload [configure_trigger] sends with [CMD_CONFIG] is
    kind, mask, pattern (one byte each), followed by the pre-trigger count
    as two little-endian bytes exactly when the kind is not Immediate or the
    mask is not 0; so it is 3 bytes long for an immediate trigger with an
    empty mask and 5 bytes long otherwise. *)
Theorem configure_trigger_payload (kind mask pattern pre_trigger_samples : Z) :
  0 <= kind < 256 → 0 <= mask < 256 → 0 <= pattern < 256 →
  0 <= pre_trigger_samples < 65536 →
  ∃ payload tail,
    configure_trigger kind mask pattern pre_trigger_samples
      = Call [[CMD_TRIGGER]; CMD_CONFIG :: payload] (Py.Returned tt)
    ∧ payload = [kind; mask; pattern] ++ tail
    ∧ (kind ≠ Immediate ∨ mask ≠ 0 →
         tail = [pre_trigger_samples mod 256; pre_trigger_samples / 256]
         ∧ Forall Demux.is_byte tail
         ∧ Py.le_value tail = pre_trigger_samples
         ∧ length payload = 5%nat)
    ∧ (kind = Immediate ∧ mask = 0 → tail = [] ∧ length payload = 3%nat).
Proof.
  intros Hk Hm Hp Hpre.
  assert (Hb : ∀ v, 0 <= v < 256 → Py.pack_field Py.B v = Some [v]).
  { intros v Hv. rewrite pack_field_in_range by (cbn; lia).
    cbn. now rewrite Z.mod_small. }
  assert (Hh : Py.pack_field Py.H pre_trigger_samples
               = Some (Py.le_bytes 2 pre_trigger_samples))
    by (rewrite pack_field_in_range by (cbn; lia); reflexivity).
  unfold configure_trigger, trigger_config_data, Immediate.
  destruct (kind =? 0) eqn:Ek; destruct (mask =? 0) eqn:Em;
    cbn [andb Py.pack]; rewrite ?Hb, ?Hh by assumption;
    cbn [app send_command].
  1: exists [kind; mask; pattern], [].
  2-4: exists ([kind; mask; pattern] ++ Py.le_bytes 2 pre_trigger_samples),
              (Py.le_bytes 2 pre_trigger_samples).
  all: repeat split; try reflexivity; try lia.
  all: try (intros [? ?]; lia).
  all: try (intros _).
  all: try apply (le_bytes_are_bytes 2).
  all: try (apply (le_value_le_bytes 2); cbn; lia).
  all: cbn [Py.le_bytes]; f_equal; f_equal.
  all: rewrite Z.mod_small; [reflexivity|].
  all: split; [apply Z.div_pos; lia|apply Z.div_lt_upper_bound; lia].
Qed.

Lemma configure_trigger_payload_witness :
  ∃ payload tail,
    configure_trigger 1 0xFF 0 300
      = Call [[CMD_TRIGGER]; CMD_CONFIG :: payload] (Py.Returned tt)
    ∧ payload = [1; 0xFF; 0] ++ tail
    ∧ (1 ≠ Immediate ∨ 0xFF ≠ 0 →
         tail = [300 mod 256; 300 / 256]
         ∧ Forall Demux.is_byte tail
         ∧ Py.le_value tail = 300
         ∧ length payload = 5%nat)
    ∧ (1 = Immediate ∧ 0xFF = 0 → tail = [] ∧ length payload = 3%nat).
Proof. apply (configure_trigger_payload 1 0xFF 0 300); lia. Defined.

End TriggerClaims.

(** ** Rounding and truncation *)

Section Rounding.
Local Open Scope Q_scope.

Lemma int_floor_nonneg x : 0 <= x → Py.int x = Qfloor x.
Proof.
  destruct x as [n d]. unfold Qle, Py.int, Qfloor. cbn. intros Hn.
  apply Z.quot_div_nonneg; lia.
Qed.

Lemma floor_bounds x : inject_Z (Qfloor x) <= x < inject_Z (Qfloor x) + 1.
Proof.
  split; [apply Qfloor_le|].
  pose proof (Qlt_floor x) as H. rewrite inject_Z_plus in H. exact H.
Qed.


(** On a tie, [round] returns the even neighbour. *)
Lemma round_tie_even x :
  x - inject_Z (Qfloor x) == 1 # 2 → Z.even (Py.round x) = true.
Proof.
  intros He. unfold Py.round.
  rewrite (proj1 (Qeq_alt _ _) He).
  destruct (Z.even (Qfloor x)) eqn:Hev; [exact Hev|].
  rewrite Z.even_add, Hev. reflexivity.
Qed.



End Rounding.

(** ** Sample-rate encoder *)

Section SampleRate.
Local Open Scope Q_scope.



Lemma is_inf_false x : 0 <= x → x < Py.float_overflow → Py.is_inf x = false.
Proof.
  intros Hx Hlt. unfold Py.is_inf. rewrite Qabs_pos by exact Hx.
  destruct (Qle_bool Py.float_overflow x) eqn:E; [|reflexivity].
  apply Qle_bool_iff in E. apply Qle_not_lt in E. contradiction.
Qed.

Lemma pack_I_in_range v :
  (0 <= v <= 0xFFFFFFFF)%Z → Py.pack [(Py.I, v)] = Some (Py.le_bytes 4 v).
Proof.
  intros Hv. cbn [Py.pack]. rewrite pack_field_in_range by (cbn; lia).
  cbn [Py.field_size]. now rewrite app_nil_r.
Qed.

Lemma Qeq_bool_false_pos t : 0 < t → Qeq_bool t 0 = false.
Proof.
  intros Ht. destruct (Qeq_bool t 0) eqn:E; [|reflexivity].
  apply Qeq_bool_eq in E. lra.
Qed.




End SampleRate.

(** ** Duty-cycle encoder *)

Section DutyCycle.
Local Open Scope Q_scope.

(** The two implementations are the same function. *)
Lemma set_duty_cycle_scripts_agree t r :
  SetDutyCycleScript.set_duty_cycle t r = ReadData.set_duty_cycle t r
  ∧ SetDutyCycleScript.period_cycles t = ReadData.period_cycles t
  ∧ SetDutyCycleScript.duty_high_cycles t r = ReadData.duty_high_cycles t r.
Proof. repeat split. Qed.







(** Outside the range of the theorem the function can also raise: above
    27 MHz the period is 0 and the realized ratio divides by zero after the
    command was sent; for a very low target [high_cycles] does not fit the
    4-byte field; at the smallest positive float the clock ratio is
    infinite. *)
Example set_duty_cycle_raises :
  ReadData.set_duty_cycle 54000000 (1 # 2)
  = Call [[0x08; 1; 0; 0; 0]%Z] (Py.Raised Py.ZeroDivisionError)
  ∧ ReadData.set_duty_cycle (1 # 1024) (1 # 2) = Call [] (Py.Raised Py.StructError)
  ∧ ReadData.set_duty_cycle (1 # 2 ^ 1074) (1 # 2)
    = Call [] (Py.Raised Py.OverflowError).
Proof. repeat split; vm_compute; reflexivity. Qed.

End DutyCycle.

(** ** Waveform analyzer *)

Section AnalyzerFacts.
Import Analyzer.

(** The scan in closed form. *)
Lemma scan_closed data (indices : list nat) (edges edge_types : list Z) :
  foldl (record_edge data) (edges, edge_types) indices
  = (edges ++ map Z.of_nat (List.filter (changed data) indices),
     edge_types ++ map (edge_type data) (List.filter (changed data) indices)).
Proof.
  revert edges edge_types.
  induction indices as [|i indices IH]; intros edges edge_types.
  - cbn. now rewrite !app_nil_r.
  - cbn [foldl List.filter record_edge].
    assert (Hc : changed data i = negb (sample data i =? sample data (i - 1)))
      by reflexivity.
    assert (Ht : edge_type data i
                 = if sample data i >? sample data (i - 1) then 1 else 0)
      by reflexivity.
    rewrite Hc.
    destruct (sample data i =? sample data (i - 1)) eqn:E; cbn [negb].
    + apply IH.
    + rewrite IH. cbn [map]. rewrite Ht. now rewrite <- !app_assoc.
Qed.

Lemma detect_edges_closed data :
  detect_edges data
  = (map Z.of_nat (edge_indices data), map (edge_type data) (edge_indices data)).
Proof. unfold detect_edges. now rewrite scan_closed. Qed.

Lemma sample_cons x data i : sample (x :: data) (S i) = sample data i.
Proof. reflexivity. Qed.

Lemma changed_cons x data i : (1 <= i)%nat → changed (x :: data) (S i) = changed data i.
Proof.
  intros Hi. unfold changed. destruct i as [|i]; [lia|].
  cbn [Nat.sub]. now rewrite Nat.sub_0_r, !sample_cons.
Qed.

Lemma filter_changed_shift x data n :
  List.filter (changed (x :: data)) (seq 2 n)
  = map S (List.filter (changed data) (seq 1 n)).
Proof.
  rewrite <- (seq_shift n 1).
  assert (Hall : Forall (λ j, (1 <= j)%nat) (seq 1 n)).
  { apply Forall_forall. intros j Hj. apply elem_of_seq in Hj. lia. }
  induction Hall as [|i l Hi _ IH]; [reflexivity|].
  cbn [map List.filter]. rewrite changed_cons by exact Hi.
  destruct (changed data i); cbn [map]; now rewrite IH.
Qed.

(** The edges the scan finds are the value changes of the plane. *)
Lemma edge_indices_length data : length (edge_indices data) = value_changes data.
Proof.
  unfold edge_indices.
  induction data as [|x data IH]; [reflexivity|].
  destruct data as [|y data]; [reflexivity|].
  cbn [length Nat.sub] in *. rewrite Nat.sub_0_r in *.
  cbn [seq List.filter value_changes].
  rewrite filter_changed_shift.
  unfold changed at 1. cbn [sample nth Nat.sub].
  rewrite Z.eqb_sym.
  destruct (x =? y); cbn [negb length Nat.add]; rewrite length_map, IH;
    reflexivity.
Qed.

Lemma detect_edges_length data :
  length (fst (detect_edges data)) = value_changes data
  ∧ length (snd (detect_edges data)) = value_changes data.
Proof.
  rewrite detect_edges_closed. cbn [fst snd].
  now rewrite !length_map, edge_indices_length.
Qed.

Lemma value_changes_short data : (length data < 2)%nat → value_changes data = 0%nat.
Proof. destruct data as [|x [|y data]]; cbn; intros; [reflexivity..|lia]. Qed.

(** *** Edge indices increase *)

Lemma filter_seq_sorted (P : nat → bool) a n :
  StronglySorted lt (List.filter P (seq a n)).
Proof.
  revert a. induction n as [|n IH]; intros a; [constructor|].
  cbn [seq List.filter].
  assert (Hgt : Forall (lt a) (List.filter P (seq (S a) n))).
  { apply List.Forall_forall. intros j Hj.
    apply filter_In in Hj as [Hj _]. apply in_seq in Hj. lia. }
  destruct (P a); [constructor; [apply IH|exact Hgt]|apply IH].
Qed.

Lemma sorted_nth {A} (R : A → A → Prop) (d : A) l :
  StronglySorted R l →
  ∀ i j, (i < j < length l)%nat → R (nth i l d) (nth j l d).
Proof.
  induction 1 as [|a l _ IH Hall]; intros i j Hij; [cbn in Hij; lia|].
  destruct j as [|j]; [lia|]. cbn [length] in Hij.
  destruct i as [|i]; cbn [nth].
  - rewrite List.Forall_forall in Hall. apply Hall, nth_In. lia.
  - apply IH. lia.
Qed.

Lemma edges_increasing data : increasing (fst (detect_edges data)).
Proof.
  rewrite detect_edges_closed. cbn [fst]. intros i j Hij.
  rewrite length_map in Hij.
  change 0 with (Z.of_nat 0). rewrite !map_nth.
  apply inj_lt.
  apply (sorted_nth lt 0%nat _ (filter_seq_sorted _ _ _)). exact Hij.
Qed.

Lemma edges_of_type_increasing ty edges edge_types :
  increasing edges → increasing (edges_of_type ty edges edge_types).
Proof.
  intros Hinc. unfold edges_of_type.
  set (picked := List.filter (λ i, nth i edge_types 0 =? ty) (seq 0 (length edges))).
  assert (Hsorted : StronglySorted lt picked) by apply filter_seq_sorted.
  assert (Hbound : ∀ a, (a < length picked)%nat → (nth a picked 0 < length edges)%nat).
  { intros a Ha. assert (Hin : In (nth a picked 0%nat) picked) by now apply nth_In.
    apply filter_In in Hin as [Hin _]. apply in_seq in Hin. lia. }
  intros i j Hij. rewrite length_map in Hij.
  rewrite (nth_indep _ 0 (nth 0%nat edges 0)) by (rewrite length_map; lia).
  rewrite (nth_indep _ 0 (nth 0%nat edges 0) (n := j)) by (rewrite length_map; lia).
  rewrite !(map_nth (λ i, nth i edges 0)).
  apply Hinc. split; [|apply Hbound; lia].
  apply (sorted_nth lt 0%nat _ Hsorted). exact Hij.
Qed.

End AnalyzerFacts.

Section PeriodFacts.
Import Analyzer.

Lemma same_type_periods_length l :
  length (same_type_periods l) = (Nat.min (length l) 20 - 1)%nat.
Proof. unfold same_type_periods. now rewrite length_map, length_seq. Qed.

Lemma all_edges_periods_length edges edge_types :
  length (all_edges_periods edges edge_types) = (Nat.min (length edges) 20 - 1)%nat.
Proof. unfold all_edges_periods. now rewrite length_map, length_seq. Qed.

Lemma same_type_periods_positive l :
  increasing l → Forall (λ p, 1 <= p) (same_type_periods l).
Proof.
  intros Hinc. unfold same_type_periods.
  apply List.Forall_forall. intros p Hp.
  apply in_map_iff in Hp as (i & <- & Hi). apply in_seq in Hi.
  specialize (Hinc (i - 1)%nat i). lia.
Qed.

Lemma all_edges_periods_positive edges edge_types :
  increasing edges → Forall (λ p, 1 <= p) (all_edges_periods edges edge_types).
Proof.
  intros Hinc. unfold all_edges_periods.
  apply List.Forall_forall. intros p Hp.
  apply in_map_iff in Hp as (i & <- & Hi). apply in_seq in Hi.
  specialize (Hinc (i - 1)%nat i).
  destruct (nth i edge_types 0 =? nth (i - 1) edge_types 0); lia.
Qed.

(** Every collected period is at least one sample. *)
Lemma estimate_periods_positive edges edge_types :
  increasing edges → Forall (λ p, 1 <= p) (estimate_periods edges edge_types).
Proof.
  intros Hinc. unfold estimate_periods.
  pose proof (same_type_periods_positive _
                (edges_of_type_increasing 1 edges edge_types Hinc)) as Hr.
  pose proof (same_type_periods_positive _
                (edges_of_type_increasing 0 edges edge_types Hinc)) as Hf.
  pose proof (all_edges_periods_positive edges edge_types Hinc) as Ha.
  repeat match goal with
         | |- context [if ?b then _ else _] => destruct b
         end; cbn [app]; auto.
Qed.

(** With two edges or more, some period is collected. *)
Lemma estimate_periods_nonempty edges edge_types :
  (2 <= length edges)%nat → (1 <= length (estimate_periods edges edge_types))%nat.
Proof.
  intros Hlen. unfold estimate_periods.
  set (p1 := if (2 <=? length (edges_of_type 1 edges edge_types))%nat
             then [] ++ same_type_periods (edges_of_type 1 edges edge_types)
             else []).
  set (p2 := if (length p1 <? 2)%nat
             then if (2 <=? length (edges_of_type 0 edges edge_types))%nat
                  then same_type_periods (edges_of_type 0 edges edge_types)
                  else p1
             else p1).
  destruct (length p2 <? 2)%nat eqn:E.
  - rewrite all_edges_periods_length. lia.
  - apply Nat.ltb_ge in E. lia.
Qed.

Lemma foldl_add_lower_bound (l : list Z) (a : Z) :
  Forall (λ p, 1 <= p) l → a + Z.of_nat (length l) <= foldl Z.add a l.
Proof.
  intros Hall. revert a. induction Hall as [|p l Hp _ IH]; intros a.
  - cbn. lia.
  - cbn [foldl length]. specialize (IH (a + p)). lia.
Qed.

Lemma sum_positive l : Forall (λ p, 1 <= p) l → Z.of_nat (length l) <= sum l.
Proof. intros Hall. exact (foldl_add_lower_bound l 0 Hall). Qed.

End PeriodFacts.

Section AnalyzerClaims.
Import Analyzer.
Local Open Scope Q_scope.

(** C8. A plane with fewer than 2 edges, in particular a plane of fewer than
    2 samples, has no frequency: [calculate_signal_frequency] returns [None]
    and does not raise, whatever the sample rate. *)
Theorem calculate_signal_frequency_degenerate (channel_data : list Z) (sample_rate : Q) :
  (length channel_data < 2 ∨ value_changes channel_data < 2)%nat →
  calculate_signal_frequency channel_data sample_rate = Py.Returned None.
Proof.
  intros Hfew. unfold calculate_signal_frequency.
  destruct (length channel_data <? 2)%nat eqn:Elen; [reflexivity|].
  apply Nat.ltb_ge in Elen.
  destruct (detect_edges channel_data) as [edges edge_types] eqn:Eedges.
  pose proof (detect_edges_length channel_data) as [Hedges _].
  rewrite Eedges in Hedges. cbn [fst] in Hedges.
  destruct (length edges <? 2)%nat eqn:E; [reflexivity|].
  apply Nat.ltb_ge in E. lia.
Qed.

Lemma calculate_signal_frequency_degenerate_witness :
  calculate_signal_frequency [0; 0; 0; 1; 1; 1]%Z 8 = Py.Returned None.
Proof.
  apply (calculate_signal_frequency_degenerate [0; 0; 0; 1; 1; 1]%Z 8).
  right. vm_compute. lia.
Defined.

Lemma gtb_true a b : b < a → Py.gtb a b = true.
Proof.
  intros Hlt. unfold Py.gtb. destruct (Qle_bool a b) eqn:E; [|reflexivity].
  apply Qle_bool_iff in E. lra.
Qed.

(** The last steps of the function, from the collected periods on. *)
Lemma mean_period_frequency (periods : list Z) (sample_rate : Q) :
  0 < sample_rate → Forall (λ p, (1 <= p)%Z) periods → length periods ≠ 0%nat →
  ∃ frequency,
    (let avg_period_samples :=
       inject_Z (sum periods) / inject_Z (Z.of_nat (length periods)) in
     if Qeq_bool sample_rate 0 then Py.Raised Py.ZeroDivisionError
     else
       let period_time := avg_period_samples / sample_rate in
       Py.Returned (if Py.gtb period_time 0 then Some (1 / period_time) else None))
    = Py.Returned (Some frequency)
    ∧ 0 < frequency.
Proof.
  intros Hrate Hpos Elen. cbv zeta.
  rewrite (Qeq_bool_false_pos _ Hrate).
  pose proof (sum_positive periods Hpos) as Hsum.
  assert (Hn : 0 < inject_Z (Z.of_nat (length periods)))
    by (rewrite <- (Zlt_Qlt 0); lia).
  assert (Hs : 0 < inject_Z (sum periods))
    by (rewrite <- (Zlt_Qlt 0); lia).
  assert (Havg : 0 < inject_Z (sum periods) / inject_Z (Z.of_nat (length periods))).
  { apply Qlt_shift_div_l; [exact Hn|]. now rewrite Qmult_0_l. }
  assert (Htime : 0 < inject_Z (sum periods) / inject_Z (Z.of_nat (length periods))
                      / sample_rate).
  { apply Qlt_shift_div_l; [exact Hrate|]. now rewrite Qmult_0_l. }
  rewrite (gtb_true _ _ Htime). eexists. split; [reflexivity|].
  apply Qlt_shift_div_l; [exact Htime|]. rewrite Qmult_0_l. reflexivity.
Qed.



(** With a positive sample rate and two edges or more a frequency is
    returned. *)
Lemma calculate_signal_frequency_defined (channel_data : list Z) (sample_rate : Q) :
  0 < sample_rate → (2 <= value_changes channel_data)%nat →
  ∃ frequency,
    calculate_signal_frequency channel_data sample_rate
      = Py.Returned (Some frequency)
    ∧ 0 < frequency.
Proof.
  intros Hrate Hedges. unfold calculate_signal_frequency.
  destruct (length channel_data <? 2)%nat eqn:Elen.
  { apply Nat.ltb_lt in Elen. rewrite value_changes_short in Hedges by exact Elen. lia. }
  pose proof (detect_edges_length channel_data) as [Hlen _].
  pose proof (edges_increasing channel_data) as Hinc.
  destruct (detect_edges channel_data) as [edges edge_types].
  cbn [fst] in Hlen, Hinc.
  destruct (length edges <? 2)%nat eqn:E; [apply Nat.ltb_lt in E; lia|].
  apply Nat.ltb_ge in E.
  pose proof (estimate_periods_nonempty edges edge_types E) as Hne.
  destruct (length (estimate_periods edges edge_types) =? 0)%nat eqn:E0;
    [apply Nat.eqb_eq in E0; lia|].
  apply mean_period_frequency; [exact Hrate| |lia].
  now apply estimate_periods_positive.
Qed.

(** The first method stands when it collects two periods, that is with
    three rising edges or more. *)
Lemma estimate_periods_three_rising edges edge_types :
  (3 <= length (edges_of_type 1 edges edge_types))%nat →
  estimate_periods edges edge_types
  = same_type_periods (edges_of_type 1 edges edge_types).
Proof.
  intros Hlen. unfold estimate_periods.
  destruct (2 <=? length (edges_of_type 1 edges edge_types))%nat eqn:E2;
    [|apply Nat.leb_gt in E2; lia].
  cbn [app].
  assert (Hp : (length (same_type_periods (edges_of_type 1 edges edge_types)) <? 2)%nat
               = false).
  { apply Nat.ltb_ge. rewrite same_type_periods_length. lia. }
  rewrite !Hp. reflexivity.
Qed.

(** C4 does not hold on the code for a plane with exactly two rising edges.
    In [0,1,0,0,0,1,0] the rising edges are at 1 and 5 and give the period 4,
    but a single period is discarded by the test [len(periods) < 2]: the two
    falling edges are tried, then all four edges, whose deltas 1, 3, 1 are
    doubled.  The frequency at 1 kHz is 300 Hz, where the rising edges
    give 250 Hz. *)
Example two_rising_edges_fall_through :
  let channel_data := [0; 1; 0; 0; 0; 1; 0]%Z in
  rising_changes channel_data = 2%nat
  ∧ detect_edges channel_data = ([1; 2; 5; 6]%Z, [1; 0; 1; 0]%Z)
  ∧ edges_of_type 1 [1; 2; 5; 6]%Z [1; 0; 1; 0]%Z = [1; 5]%Z
  ∧ same_type_periods [1; 5]%Z = [4]%Z
  ∧ estimate_periods [1; 2; 5; 6]%Z [1; 0; 1; 0]%Z = [2; 6; 2]%Z
  ∧ estimate_periods [1; 2; 5; 6]%Z [1; 0; 1; 0]%Z ≠ same_type_periods [1; 5]%Z
  ∧ ∃ frequency,
      calculate_signal_frequency channel_data 1000 = Py.Returned (Some frequency)
      ∧ frequency == 300 ∧ ¬ frequency == 1000 / 4.
Proof.
  cbv zeta. repeat split; try (vm_compute; reflexivity).
  - vm_compute. discriminate.
  - eexists. split; [vm_compute; reflexivity|]. split; [reflexivity|].
    vm_compute. discriminate.
Qed.

End AnalyzerClaims.

(** ** Capture receiver *)

Section ReceiverFacts.
Import Receiver.
Local Open Scope Q_scope.

Variable expected_size : Z.
Variable timeout : Q.
Variable start_time : Q.

Abbreviation step := (step expected_size timeout start_time).
Abbreviation run := (run expected_size timeout start_time).

Lemma run_app s polls rest :
  run s (polls ++ rest)
  = match run s polls with
    | inl s' => run s' rest
    | inr r => inr r
    end.
Proof.
  revert s. induction polls as [|p polls IH]; intros s; [reflexivity|].
  cbn [app Receiver.run]. destruct (step s p); [apply IH|reflexivity].
Qed.

Lemma gtb_false a b : a <= b → Py.gtb a b = false.
Proof.
  intros Hle. unfold Py.gtb. apply Qle_bool_iff in Hle. now rewrite Hle.
Qed.





(** Past the hard ceiling a turn ends in [TimedOut], whatever has arrived. *)
Lemma step_timed_out s p :
  timeout < now p - start_time → step s p = inr (TimedOut, data s).
Proof.
  intros Htime. unfold Receiver.step. now rewrite (gtb_true _ _ Htime).
Qed.

End ReceiverFacts.

Section ReceiverClaims.
Import Receiver.
Local Open Scope Q_scope.




End ReceiverClaims.

(** ** VCD exporter *)

Section VcdFacts.
Import Vcd.

Lemma timestamps_app l1 l2 : timestamps (l1 ++ l2) = timestamps l1 ++ timestamps l2.
Proof. unfold timestamps. apply omap_app. Qed.

Lemma timestamps_initial_values i channels : timestamps (initial_values i channels) = [].
Proof.
  revert i. induction channels as [|c channels IH]; intros i; [reflexivity|].
  cbn [initial_values]. destruct c; [apply IH|]. cbn. apply IH.
Qed.

Lemma lookup_nth_in_range (c : list Z) i :
  (i < length c)%nat → c !! i = Some (nth i c 0).
Proof.
  intros Hi. destruct (lookup_lt_is_Some_2 c i Hi) as [v Hv].
  rewrite Hv. f_equal. symmetry. now apply nth_lookup_Some.
Qed.




Lemma write_changes_no_timestamps prev channels idx i :
  timestamps (fst (fst (write_changes i prev channels idx))) = [].
Proof.
  revert prev i. induction channels as [|c channels IH]; intros prev i;
    [destruct prev; reflexivity|].
  destruct prev as [|p prev]; [reflexivity|]. cbn [write_changes].
  destruct (c !! idx) as [value|]; [|reflexivity].
  specialize (IH prev (S i)).
  destruct (write_changes (S i) prev channels idx) as [[lines ps'] e].
  cbn [fst] in IH. destruct (bool_decide (p = Some value)); exact IH.
Qed.

(** Whatever the channels, a timestamp written by the loop is the index of
    a sample times the step. *)
Lemma export_samples_timestamps_of_samples step channels prev indices :
  Forall (λ t, ∃ i, In i indices ∧ t = Z.of_nat i * step)
         (timestamps (fst (export_samples step channels prev indices))).
Proof.
  revert prev. induction indices as [|idx indices IH]; intros prev;
    [constructor|].
  assert (Hweaken : ∀ ts,
             Forall (λ t, ∃ i, In i indices ∧ t = Z.of_nat i * step) ts →
             Forall (λ t, ∃ i, In i (idx :: indices) ∧ t = Z.of_nat i * step) ts).
  { intros ts Hts. eapply Forall_impl; [exact Hts|].
    intros t (i & Hi & Ht). exists i. split; [now right|exact Ht]. }
  cbn [export_samples].
  destruct (has_change prev channels idx) as [[|]|e]; [| |constructor].
  - pose proof (write_changes_no_timestamps prev channels idx 0) as Hw.
    destruct (write_changes 0 prev channels idx) as [[lines prev'] e].
    cbn [fst] in Hw.
    assert (Hhead : ∃ i, In i (idx :: indices)
                         ∧ Z.of_nat idx * step = Z.of_nat i * step)
      by (exists idx; split; [now left|reflexivity]).
    destruct e as [e|].
    + cbn [fst]. change (Timestamp ?t :: ?l) with ([Timestamp t] ++ l).
      rewrite timestamps_app, Hw. repeat constructor. exact Hhead.
    + specialize (IH prev').
      destruct (export_samples step channels prev' indices) as [lines' e'].
      cbn [fst] in *. change (Timestamp ?t :: ?l) with ([Timestamp t] ++ l).
      rewrite !timestamps_app, Hw. cbn [app timestamps omap].
      constructor; [exact Hhead|]. apply Hweaken, IH.
  - apply Hweaken, IH.
Qed.





Lemma time_step_ps_floor sample_rate :
  (0 < sample_rate)%Q → time_step_ps sample_rate = Qfloor (inject_Z (10 ^ 12) / sample_rate).
Proof.
  intros Hrate. unfold time_step_ps. apply int_floor_nonneg.
  apply Qle_shift_div_l; [exact Hrate|]. rewrite Qmult_0_l. discriminate.
Qed.

End VcdFacts.

Section VcdClaims.
Import Vcd.




(** The example of the specification: the plane [0, 1] at 1 MHz gives two
    blocks, [#0] and [#1000000]. *)
Example export_to_vcd_two_samples :
  map render (fst (export_body [[0; 1]] 1000000))
  = ["#0"; "0ch0"; "#1000000"; "1ch0"]%string.
Proof. vm_compute. reflexivity. Qed.

End VcdClaims.

(** ** The inputs of the counterexamples in binary64 arithmetic

    The quotients the encoders and the exporter compute at the inputs used
    above, evaluated in binary64, are truncated and rounded to the same
    integers as their exact values. *)

Section Binary64Checks.
Import Binary64 PrimFloat.

Example binary64_sample_rate_4MHz :
  agrees Py.int (27000000 / 4000000)%float 6
  ∧ agrees Py.round (27000000 / 4000000)%float 7.
Proof. split; eexists; split; vm_compute; reflexivity. Qed.

Example binary64_sample_rate_saturates :
  agrees Py.round (27000000 / 0.0009765625)%float 27648000000.
Proof. eexists; split; vm_compute; reflexivity. Qed.

Example binary64_duty_27MHz :
  agrees Py.int (27000000 / 27000000)%float 1
  ∧ agrees Py.int (1 * 0.5)%float 0.
Proof. split; eexists; split; vm_compute; reflexivity. Qed.

Example binary64_vcd_step_6MHz :
  agrees Py.int (1e12 / 6000000)%float 166666
  ∧ agrees Py.round (1e12 / 6000000)%float 166667.
Proof. split; eexists; split; vm_compute; reflexivity. Qed.

Example binary64_smallest_target :
  (∃ q, value 0x1p-1074%float = Some q ∧ (q == 1 # 2 ^ 1074)%Q)
  ∧ is_infinite (27000000 / 0x1p-1074)%float = true
  ∧ is_infinite (1e12 / 0x1p-1074)%float = true
  ∧ Py.is_inf (27000000 / (1 # 2 ^ 1074)) = true
  ∧ Py.is_inf (inject_Z (10 ^ 12) / (1 # 2 ^ 1074)) = true.
Proof.
  split; [eexists; split; [vm_compute; reflexivity|reflexivity]|].
  repeat split; vm_compute; reflexivity.
Qed.

(** The largest finite float and the least value that rounds to infinity. *)
Example binary64_overflow_threshold :
  (∃ q, value 0x1.fffffffffffffp+1023%float = Some q
        ∧ (q < Py.float_overflow)%Q
        ∧ (Py.float_overflow - q == inject_Z (2 ^ 970))%Q)
  ∧ is_infinite (0x1.fffffffffffffp+1023 + 0x1p+970)%float = true
  ∧ is_infinite (0x1.fffffffffffffp+1023 + 0x1.fffffffffffffp+969)%float = false.
Proof.
  split; [eexists; split; [vm_compute; reflexivity|split; reflexivity]|].
  split; vm_compute; reflexivity.
Qed.

Example binary64_frequency_two_rising_edges :
  (1 / ((2 + 6 + 2) / 3 / 1000))%float = 300%float
  ∧ (1 / (4 / 1 / 1000))%float = 250%float.
Proof. split; vm_compute; reflexivity. Qed.

End Binary64Checks.

(** * Further properties

    ** Frequency output *)

Section FrequencyFacts.
Local Open Scope Q_scope.

Lemma Qeq_bool_false_nonzero t : ¬ t == 0 → Qeq_bool t 0 = false.
Proof.
  intros Ht. destruct (Qeq_bool t 0) eqn:E; [|reflexivity].
  apply Qeq_bool_eq in E. contradiction.
Qed.

Lemma int_comp x y : x == y → Py.int x = Py.int y.
Proof.
  intros Heq.
  destruct (Qlt_le_dec x 0) as [Hneg|Hpos].
  - assert (Hx : Py.int x = (- Qfloor (- x))%Z).
    { destruct x as [n d]. unfold Qlt in Hneg. cbn in Hneg.
      unfold Py.int, Qfloor, Qopp. cbn.
      rewrite <- Z.quot_div_nonneg by lia. rewrite Z.quot_opp_l by lia. lia. }
    assert (Hy : Py.int y = (- Qfloor (- y))%Z).
    { rewrite Heq in Hneg. destruct y as [n d]. unfold Qlt in Hneg. cbn in Hneg.
      unfold Py.int, Qfloor, Qopp. cbn.
      rewrite <- Z.quot_div_nonneg by lia. rewrite Z.quot_opp_l by lia. lia. }
    rewrite Hx, Hy. now rewrite Heq.
  - rewrite !int_floor_nonneg; [now rewrite Heq| |exact Hpos].
    now rewrite <- Heq.
Qed.

Lemma round_comp x y : x == y → Py.round x = Py.round y.
Proof.
  intros Heq. unfold Py.round.
  rewrite (Qfloor_comp _ _ Heq).
  assert (Hc : (x - inject_Z (Qfloor y) ?= 1 # 2) = (y - inject_Z (Qfloor y) ?= 1 # 2))
    by now rewrite Heq.
  now rewrite Hc.
Qed.

Lemma int_of_integer (k : Z) : Py.int (inject_Z k) = k.
Proof. unfold Py.int. cbn. apply Z.quot_1_r. Qed.

Lemma round_of_integer (k : Z) : Py.round (inject_Z k) = k.
Proof.
  unfold Py.round. rewrite Qfloor_Z.
  assert (Hc : (inject_Z k - inject_Z k ?= 1 # 2) = Lt).
  { apply (proj1 (Qlt_alt _ _)). lra. }
  now rewrite Hc.
Qed.

(** Truncation never exceeds rounding, and rounding adds at most one. *)
Lemma int_le_round x : 0 <= x → (Py.int x <= Py.round x <= Py.int x + 1)%Z.
Proof.
  intros Hx. rewrite (int_floor_nonneg _ Hx). unfold Py.round.
  destruct (x - inject_Z (Qfloor x) ?= 1 # 2); [destruct (Z.even (Qfloor x))|..]; lia.
Qed.




End FrequencyFacts.

Section FrequencyProperties.
Local Open Scope Q_scope.






End FrequencyProperties.

(** ** Frequency and duty cycle together *)

Section DutyAfterFrequency.
Local Open Scope Q_scope.

Lemma overflow_above_2_34 : inject_Z (2 ^ 34) < Py.float_overflow.
Proof. vm_compute. reflexivity. Qed.



(** Above 27 MHz [set_duty_cycle] has no clock cycle to divide: the period
    is 0, the command is sent with [high_cycles = 1], and the realized ratio
    then divides by zero.  Both implementations behave so. *)
Theorem set_duty_cycle_above_clock (target_freq_hz duty_ratio : Q) :
  27000000 < target_freq_hz →
  ReadData.period_cycles target_freq_hz = 0%Z
  ∧ ReadData.set_duty_cycle target_freq_hz duty_ratio
    = Call [[0x08; 1; 0; 0; 0]%Z] (Py.Raised Py.ZeroDivisionError)
  ∧ SetDutyCycleScript.set_duty_cycle target_freq_hz duty_ratio
    = Call [[0x08; 1; 0; 0; 0]%Z] (Py.Raised Py.ZeroDivisionError).
Proof.
  intros Habove.
  assert (Hpos : 0 < target_freq_hz) by lra.
  assert (Hq0 : 0 <= 27000000 / target_freq_hz).
  { apply Qle_shift_div_l; [exact Hpos|]. rewrite Qmult_0_l. discriminate. }
  assert (Hq1 : 27000000 / target_freq_hz < 1).
  { apply Qlt_shift_div_r; [exact Hpos|]. lra. }
  assert (Hperiod : ReadData.period_cycles target_freq_hz = 0%Z).
  { unfold ReadData.period_cycles. rewrite (int_floor_nonneg _ Hq0).
    pose proof (floor_bounds (27000000 / target_freq_hz)) as [Hlo Hhi].
    assert (H1 : inject_Z (Qfloor (27000000 / target_freq_hz)) < inject_Z 1)
      by (change (inject_Z 1) with 1; lra).
    assert (H0 : inject_Z (-1) < inject_Z (Qfloor (27000000 / target_freq_hz)))
      by (change (inject_Z (-1)) with (-1); lra).
    rewrite <- Zlt_Qlt in H0, H1. lia. }
  assert (Hread : ReadData.set_duty_cycle target_freq_hz duty_ratio
                  = Call [[0x08; 1; 0; 0; 0]%Z] (Py.Raised Py.ZeroDivisionError)).
  { unfold ReadData.set_duty_cycle, ReadData.duty_high_cycles.
    rewrite (Qeq_bool_false_pos _ Hpos), Hperiod.
    pose proof overflow_above_2_34 as Hover.
    assert (Hone : 1 < Py.float_overflow)
      by (apply Qlt_trans with (inject_Z (2 ^ 34)); [reflexivity|exact Hover]).
    assert (Hfin : 27000000 / target_freq_hz < Py.float_overflow) by lra.
    rewrite (is_inf_false _ Hq0 Hfin).
    assert (Hzero : inject_Z 0 * duty_ratio == 0) by (change (inject_Z 0) with 0; ring).
    assert (Hz0 : 0 <= inject_Z 0 * duty_ratio) by (rewrite Hzero; discriminate).
    assert (Hz1 : inject_Z 0 * duty_ratio < Py.float_overflow)
      by (rewrite Hzero; lra).
    rewrite (is_inf_false _ Hz0 Hz1), (int_comp _ _ Hzero). reflexivity. }
  split; [exact Hperiod|]. split; [exact Hread|exact Hread].
Qed.

Lemma set_duty_cycle_above_clock_witness :
  ReadData.set_duty_cycle 54000000 (1 # 2)
  = Call [[0x08; 1; 0; 0; 0]%Z] (Py.Raised Py.ZeroDivisionError).
Proof.
  apply (set_duty_cycle_above_clock 54000000 (1 # 2)). reflexivity.
Defined.

End DutyAfterFrequency.

(** ** Accuracy of the sample-rate dividers *)

Section DividerAccuracy.
Local Open Scope Q_scope.

(** A whole number of hertz that divides the clock is realized exactly: for
    such a rate both implementations of [set_sample_rate] compute the
    divider [27 MHz / rate], and the realized rate is the target. *)
Theorem clock_divisor_rates_are_exact (rate : Z) :
  (0 < rate)%Z → (27000000 mod rate = 0)%Z →
  let divider := (27000000 / rate)%Z in
  let target_hz := inject_Z rate in
  ReadData.sample_rate_divider target_hz = divider
  ∧ SetSampleRateScript.sample_rate_divider target_hz = divider
  ∧ realized_rate divider == target_hz
  ∧ ReadData.set_sample_rate target_hz
    = Call [CMD_SET_SAMPLE_RATE :: Py.le_bytes 4 divider]
           (Py.Returned (realized_rate divider))
  ∧ SetSampleRateScript.set_sample_rate target_hz
    = Call [CMD_SET_SAMPLE_RATE :: Py.le_bytes 4 divider]
           (Py.Returned (realized_rate divider)).
Proof.
  intros Hrate Hdiv divider target_hz.
  assert (Hexact : (27000000 = rate * divider)%Z)
    by (apply Z_div_exact_full_2; [lia|exact Hdiv]).
  assert (Hk : (1 <= divider <= 0xFFFFFFFF)%Z) by nia.
  assert (Hkq : 0 < inject_Z divider) by (rewrite <- (Zlt_Qlt 0); lia).
  assert (Hpos : 0 < target_hz) by (unfold target_hz; rewrite <- (Zlt_Qlt 0); lia).
  assert (Hclk : inject_Z SYS_CLK_FREQ == target_hz * inject_Z divider).
  { unfold target_hz. rewrite <- inject_Z_mult.
    change SYS_CLK_FREQ with 27000000%Z. now rewrite <- Hexact. }
  assert (Hratio : inject_Z SYS_CLK_FREQ / target_hz == inject_Z divider).
  { rewrite Hclk. field. lra. }
  assert (Hrd : ReadData.sample_rate_divider target_hz = divider).
  { unfold ReadData.sample_rate_divider.
    rewrite (round_comp _ _ Hratio), round_of_integer. lia. }
  assert (Hscript : SetSampleRateScript.sample_rate_divider target_hz = divider).
  { unfold SetSampleRateScript.sample_rate_divider.
    change (inject_Z SetSampleRateScript.SYS_CLK_FREQ) with (inject_Z SYS_CLK_FREQ).
    rewrite (int_comp _ _ Hratio), int_of_integer. lia. }
  assert (Hfin : Py.is_inf (inject_Z SYS_CLK_FREQ / target_hz) = false).
  { pose proof overflow_above_2_34 as Hover.
    assert (Hsmall : inject_Z divider < inject_Z (2 ^ 34)) by (rewrite <- Zlt_Qlt; lia).
    apply is_inf_false; rewrite Hratio; lra. }
  split; [exact Hrd|]. split; [exact Hscript|].
  split.
  { unfold realized_rate. change (inject_Z SYS_CLK_FREQ) with 27000000 in Hclk.
    rewrite Hclk. field. lra. }
  split.
  - unfold ReadData.set_sample_rate.
    rewrite (Qeq_bool_false_pos _ Hpos), Hfin, Hrd, pack_I_in_range by lia.
    reflexivity.
  - unfold SetSampleRateScript.set_sample_rate.
    change (inject_Z SetSampleRateScript.SYS_CLK_FREQ) with (inject_Z SYS_CLK_FREQ).
    rewrite (Qeq_bool_false_pos _ Hpos), Hfin, Hscript, pack_I_in_range by lia.
    reflexivity.
Qed.

Lemma clock_divisor_rates_are_exact_witness :
  ReadData.sample_rate_divider 100000 = 270%Z
  ∧ SetSampleRateScript.sample_rate_divider 100000 = 270%Z
  ∧ realized_rate 270 == 100000.
Proof.
  destruct (clock_divisor_rates_are_exact 100000) as (Hrd & Hscript & Hreal & _);
    [lia|reflexivity|].
  split; [exact Hrd|]. split; [exact Hscript|exact Hreal].
Defined.

(** The divider of the script, which truncates, is the divider of
    [read_data.py], which rounds, or one less. *)
Theorem truncated_divider_at_most_one_less (target_hz : Q) :
  0 < target_hz →
  (SetSampleRateScript.sample_rate_divider target_hz
   <= ReadData.sample_rate_divider target_hz
   <= SetSampleRateScript.sample_rate_divider target_hz + 1)%Z.
Proof.
  intros Hpos.
  assert (Hq : 0 <= inject_Z SYS_CLK_FREQ / target_hz).
  { apply Qle_shift_div_l; [exact Hpos|]. rewrite Qmult_0_l. discriminate. }
  pose proof (int_le_round _ Hq) as Hround.
  unfold SetSampleRateScript.sample_rate_divider, ReadData.sample_rate_divider.
  change (inject_Z SetSampleRateScript.SYS_CLK_FREQ) with (inject_Z SYS_CLK_FREQ).
  lia.
Qed.

Lemma truncated_divider_at_most_one_less_witness :
  SetSampleRateScript.sample_rate_divider 4000000 = 6%Z
  ∧ ReadData.sample_rate_divider 4000000 = 7%Z
  ∧ (SetSampleRateScript.sample_rate_divider 4000000
     <= ReadData.sample_rate_divider 4000000
     <= SetSampleRateScript.sample_rate_divider 4000000 + 1)%Z.
Proof.
  split; [reflexivity|]. split; [reflexivity|].
  apply (truncated_divider_at_most_one_less 4000000). reflexivity.
Defined.





End DividerAccuracy.

(** ** Trigger configuration: what is rejected *)

Section TriggerErrors.
Import ReadData.

(** [configure_trigger] returns exactly when every field it packs fits: the
    three bytes always, the pre-trigger count only when it is sent.  When it
    raises, the bare [CMD_TRIGGER] frame has already been written and no
    configuration follows it.  For the immediate trigger the pre-trigger
    count is not looked at. *)
Theorem configure_trigger_rejects_out_of_range
    (trigger_type trigger_mask trigger_pattern pre_trigger_count : Z) :
  let packs :=
    0 <= trigger_type < 256 ∧ 0 <= trigger_mask < 256
    ∧ 0 <= trigger_pattern < 256
    ∧ ((trigger_type = 0 ∧ trigger_mask = 0) ∨ 0 <= pre_trigger_count < 65536) in
  let result :=
    configure_trigger trigger_type trigger_mask trigger_pattern pre_trigger_count in
  (packs → ended result = Py.Returned tt ∧ length (written result) = 2%nat)
  ∧ (¬ packs → result = Call [[CMD_TRIGGER]] (Py.Raised Py.StructError))
  ∧ (trigger_type = 0 → trigger_mask = 0 →
     result = configure_trigger 0 0 trigger_pattern 0).
Proof.
  intros packs result. unfold packs, result. clear packs result.
  assert (HB : ∀ v, Py.pack_field Py.B v
                    = if decide (0 <= v < 256) then Some [v mod 256] else None).
  { intros v. destruct (decide (0 <= v < 256)) as [Hv|Hv].
    - now rewrite pack_field_in_range by (cbn; lia).
    - now rewrite pack_field_out_of_range by (cbn; lia). }
  assert (HH : ∀ v, Py.pack_field Py.H v
                    = if decide (0 <= v < 65536) then Some (Py.le_bytes 2 v) else None).
  { intros v. destruct (decide (0 <= v < 65536)) as [Hv|Hv].
    - now rewrite pack_field_in_range by (cbn; lia).
    - now rewrite pack_field_out_of_range by (cbn; lia). }
  unfold configure_trigger, trigger_config_data.
  split; [|split].
  - intros (Ht & Hm & Hp & Hpre).
    destruct (trigger_type =? 0) eqn:Et; destruct (trigger_mask =? 0) eqn:Em;
      cbn [andb Py.pack]; rewrite !HB, ?HH;
      repeat (destruct (decide _); try lia); cbn; split; reflexivity.
  - intros Hbad.
    destruct (trigger_type =? 0) eqn:Et; destruct (trigger_mask =? 0) eqn:Em;
      cbn [andb Py.pack]; rewrite !HB, ?HH;
      repeat (destruct (decide _); try lia); reflexivity.
  - intros -> ->. reflexivity.
Qed.

End TriggerErrors.

(** ** Channel demultiplexer: streaming and upper bits *)

Section DemuxProperties.
Import Demux.

(** A capture can be demultiplexed piece by piece: the planes of [a ++ b] are
    the planes of [a], each followed by the same plane of [b]. *)
Theorem parse_channels_app (a b : list Z) :
  parse_channels (a ++ b)
  = zip_with app (parse_channels a) (parse_channels b).
Proof.
  rewrite !parse_channels_planes. cbn [CHANNELS seq map zip_with].
  unfold plane_of. now rewrite !map_app.
Qed.

Lemma channel_bit_mod_256 b c : (c < CHANNELS)%nat → channel_bit (b mod 256) c = channel_bit b c.
Proof.
  intros Hc. unfold channel_bit. change 256 with (2 ^ 8).
  rewrite <- !(Z.land_ones _ 8) by lia.
  apply Z.bits_inj'. intros n Hn.
  rewrite !Z.land_spec, !Z.shiftr_spec, Z.land_spec by lia.
  destruct (Z.eq_dec n 0) as [->|Hn0].
  - rewrite Z.ones_spec_low by (unfold CHANNELS in Hc; lia).
    now rewrite andb_true_r.
  - assert (H1 : Z.testbit 1 n = false).
    { change 1 with (Z.ones 1). apply Z.ones_spec_high. lia. }
    now rewrite H1, !andb_false_r.
Qed.

(** Only the low eight bits of a sample are looked at: a value outside
    0..255 gives the planes of its remainder modulo 256. *)
Theorem parse_channels_ignores_upper_bits (data : list Z) :
  parse_channels (map (λ b, b mod 256) data) = parse_channels data.
Proof.
  rewrite !parse_channels_planes.
  apply map_ext_in. intros c Hc. apply in_seq in Hc.
  unfold plane_of. rewrite map_map. apply map_ext. intros b.
  apply channel_bit_mod_256. lia.
Qed.

End DemuxProperties.

(** ** Duty cycle *)

Section DutyCycleProperties.
Import DutyCycle.
Local Open Scope Q_scope.

Lemma foldl_add_shift (l : list Z) (a : Z) : foldl Z.add a l = (a + foldl Z.add 0 l)%Z.
Proof.
  revert a. induction l as [|x l IH]; intros a; cbn [foldl]; [lia|].
  rewrite (IH (a + x)%Z), (IH (0 + x)%Z). lia.
Qed.

Lemma sum_cons x l : Analyzer.sum (x :: l) = (x + Analyzer.sum l)%Z.
Proof. unfold Analyzer.sum. cbn [foldl]. rewrite foldl_add_shift. lia. Qed.

Lemma sum_bit_plane_bounds l :
  bit_plane l → (0 <= Analyzer.sum l <= Z.of_nat (length l))%Z.
Proof.
  induction 1 as [|x l Hx _ IH]; [cbn; lia|].
  rewrite sum_cons. cbn [length]. lia.
Qed.

Lemma sum_zero_iff l : bit_plane l → Analyzer.sum l = 0%Z ↔ Forall (λ bit, bit = 0%Z) l.
Proof.
  induction 1 as [|x l Hx Hl IH]; [split; [constructor|reflexivity]|].
  rewrite sum_cons. pose proof (sum_bit_plane_bounds l Hl) as Hb. split.
  - intros Hs. constructor; [lia|]. apply IH. lia.
  - intros Hall. inversion Hall as [|? ? Hx0 Hrest]; subst.
    apply IH in Hrest. lia.
Qed.

Lemma sum_full_iff l :
  bit_plane l → Analyzer.sum l = Z.of_nat (length l) ↔ Forall (λ bit, bit = 1%Z) l.
Proof.
  induction 1 as [|x l Hx Hl IH]; [split; [constructor|reflexivity]|].
  rewrite sum_cons. pose proof (sum_bit_plane_bounds l Hl) as Hb.
  cbn [length]. split.
  - intros Hs. constructor; [lia|]. apply IH. lia.
  - intros Hall. inversion Hall as [|? ? Hx1 Hrest]; subst.
    apply IH in Hrest. lia.
Qed.

Lemma duty_cycle_of_bits (channel_data : list Z) :
  bit_plane channel_data →
  (channel_data = [] → calculate_duty_cycle channel_data = None)
  ∧ (channel_data ≠ [] →
     ∃ duty_cycle,
       calculate_duty_cycle channel_data = Some duty_cycle
       ∧ 0 <= duty_cycle <= 100
       ∧ (duty_cycle == 0 ↔ Forall (λ bit, bit = 0%Z) channel_data)
       ∧ (duty_cycle == 100 ↔ Forall (λ bit, bit = 1%Z) channel_data)).
Proof.
  intros Hbits. split; [intros ->; reflexivity|].
  intros Hne. unfold calculate_duty_cycle.
  destruct channel_data as [|x l] eqn:El; [contradiction|].
  rewrite <- El in *. clear Hne.
  assert (Hlen : (0 < length channel_data)%nat) by (rewrite El; cbn; lia).
  destruct (length channel_data =? 0)%nat eqn:E; [apply Nat.eqb_eq in E; lia|].
  pose proof (sum_bit_plane_bounds _ Hbits) as [Hs0 Hs1].
  set (s := Analyzer.sum channel_data) in *.
  set (n := Z.of_nat (length channel_data)) in *.
  assert (Hn : 0 < inject_Z n) by (rewrite <- (Zlt_Qlt 0); lia).
  assert (Hsq0 : 0 <= inject_Z s) by (rewrite <- (Zle_Qle 0); exact Hs0).
  assert (Hsq1 : inject_Z s <= inject_Z n) by (rewrite <- Zle_Qle; exact Hs1).
  assert (Hdiv : inject_Z s / inject_Z n * inject_Z n == inject_Z s) by (field; lra).
  set (r := inject_Z s / inject_Z n) in *.
  assert (Hr0 : 0 <= r) by nra.
  assert (Hr1 : r <= 1) by nra.
  eexists. split; [reflexivity|]. split; [split; lra|]. split.
  - rewrite <- (sum_zero_iff _ Hbits). fold s. split.
    + intros Hz. assert (Hs : inject_Z s == inject_Z 0)
        by (change (inject_Z 0) with 0; nra).
      exact (proj1 (inject_Z_injective s 0) Hs).
    + intros Hs. rewrite Hs in Hdiv. change (inject_Z 0) with 0 in Hdiv. nra.
  - rewrite <- (sum_full_iff _ Hbits). fold s n. split.
    + intros Hfull. assert (Hs : inject_Z s == inject_Z n) by nra.
      exact (proj1 (inject_Z_injective s n) Hs).
    + intros Hs. rewrite Hs in Hdiv. nra.
Qed.

(** The duty cycle of a non-empty plane of bits is a percentage: it lies in
    [0, 100], it is 0 exactly for the all-zero plane and 100 exactly for the
    all-one plane.  The empty plane has none. *)
Theorem calculate_duty_cycle_percentage (channel_data : list Z) :
  bit_plane channel_data →
  (channel_data = [] → calculate_duty_cycle channel_data = None)
  ∧ (channel_data ≠ [] →
     ∃ duty_cycle,
       calculate_duty_cycle channel_data = Some duty_cycle
       ∧ 0 <= duty_cycle <= 100
       ∧ (duty_cycle == 0 ↔ Forall (λ bit, bit = 0%Z) channel_data)
       ∧ (duty_cycle == 100 ↔ Forall (λ bit, bit = 1%Z) channel_data)).
Proof. exact (duty_cycle_of_bits channel_data). Qed.

Lemma calculate_duty_cycle_percentage_witness :
  ∃ duty_cycle,
    calculate_duty_cycle [0; 1; 1; 0]%Z = Some duty_cycle
    ∧ 0 <= duty_cycle <= 100 ∧ duty_cycle == 50.
Proof.
  assert (Hbits : bit_plane [0; 1; 1; 0]%Z)
    by (repeat constructor; lia).
  destruct (calculate_duty_cycle_percentage [0; 1; 1; 0]%Z Hbits) as [_ Hsome].
  destruct Hsome as (d & Hd & Hrange & _); [discriminate|].
  exists d. split; [exact Hd|]. split; [exact Hrange|].
  vm_compute in Hd. inversion Hd. reflexivity.
Defined.

End DutyCycleProperties.

(** ** Analysis of a demultiplexed capture *)

Section CaptureAnalysis.
Import Analyzer DutyCycle.
Local Open Scope Q_scope.

Lemma frequency_none_few_edges (channel_data : list Z) (sample_rate : Q) :
  (value_changes channel_data < 2)%nat →
  calculate_signal_frequency channel_data sample_rate = Py.Returned None.
Proof.
  intros Hfew. unfold calculate_signal_frequency.
  destruct (length channel_data <? 2)%nat; [reflexivity|].
  pose proof (detect_edges_length channel_data) as [Hedges _].
  destruct (detect_edges channel_data) as [edges edge_types].
  cbn [fst] in Hedges.
  destruct (length edges <? 2)%nat eqn:E; [reflexivity|].
  apply Nat.ltb_ge in E. lia.
Qed.

(** What [main] and [analyze_data] do with a capture always works: for a
    positive sample rate, each of the 8 planes of [parse_channels] is as long
    as the capture, its frequency is computed without an exception and is
    [None] exactly when the plane has fewer than 2 edges, and for a non-empty
    capture its duty cycle is a percentage. *)
Theorem demuxed_capture_is_analyzable (data : list Z) (sample_rate : Q) (ch : nat) :
  0 < sample_rate → (ch < CHANNELS)%nat →
  ∃ plane,
    Demux.parse_channels data !! ch = Some plane
    ∧ length plane = length data
    ∧ (∃ frequency,
         calculate_signal_frequency plane sample_rate = Py.Returned frequency
         ∧ (frequency = None ↔ (value_changes plane < 2)%nat))
    ∧ (data ≠ [] →
       ∃ duty_cycle,
         calculate_duty_cycle plane = Some duty_cycle ∧ 0 <= duty_cycle <= 100).
Proof.
  intros Hrate Hch. exists (Demux.plane_of data ch).
  assert (Hlen : length (Demux.plane_of data ch) = length data)
    by (unfold Demux.plane_of; apply length_map).
  split.
  { rewrite parse_channels_planes, list_lookup_fmap, lookup_seq_lt by exact Hch.
    reflexivity. }
  split; [exact Hlen|]. split.
  - destruct (Nat.lt_ge_cases (value_changes (Demux.plane_of data ch)) 2) as [Hfew|Hmany].
    + exists None. split; [now apply frequency_none_few_edges|].
      split; [intros _; exact Hfew|reflexivity].
    + destruct (calculate_signal_frequency_defined _ _ Hrate Hmany) as (f & Hf & _).
      exists (Some f). split; [exact Hf|]. split; [discriminate|lia].
  - intros Hne.
    assert (Hbits : bit_plane (Demux.plane_of data ch)).
    { unfold bit_plane, Demux.plane_of. apply Forall_fmap, Forall_forall.
      intros b _. apply channel_bit_01. }
    destruct (duty_cycle_of_bits _ Hbits) as [_ Hsome].
    destruct Hsome as (d & Hd & Hrange & _).
    + intros Hnil. rewrite Hnil in Hlen. destruct data; [contradiction|discriminate].
    + exists d. split; assumption.
Qed.

Lemma demuxed_capture_is_analyzable_witness :
  ∃ plane,
    Demux.parse_channels [0; 1; 0; 1; 0; 1]%Z !! 0%nat = Some plane
    ∧ length plane = 6%nat
    ∧ (∃ frequency,
         calculate_signal_frequency plane 100000 = Py.Returned frequency
         ∧ (frequency = None ↔ (value_changes plane < 2)%nat))
    ∧ ([0; 1; 0; 1; 0; 1]%Z ≠ [] →
       ∃ duty_cycle,
         calculate_duty_cycle plane = Some duty_cycle ∧ 0 <= duty_cycle <= 100).
Proof.
  apply (demuxed_capture_is_analyzable [0; 1; 0; 1; 0; 1]%Z 100000 0).
  - reflexivity.
  - unfold CHANNELS. lia.
Defined.

End CaptureAnalysis.

(** ** Capture receiver: what each outcome means *)

Section ReceiverOutcomes.
Import Receiver.
Local Open Scope Q_scope.

Variable expected_size : Z.
Variable timeout : Q.
Variable start_time : Q.

Abbreviation step' := (step expected_size timeout start_time).
Abbreviation run' := (run expected_size timeout start_time).






Lemma run_silent s polls :
  data s = [] → Forall (λ p, chunk p = []) polls →
  Forall (λ p, now p - start_time <= timeout) polls →
  run' s polls = inl s.
Proof.
  intros Hempty Hsilent Hearly. revert Hearly.
  induction Hsilent as [|p polls Hp _ IH]; intros Hearly; [reflexivity|].
  inversion Hearly as [|? ? Hp_early Hrest]; subst.
  cbn [Receiver.run]. unfold Receiver.step.
  rewrite (gtb_false _ _ Hp_early), Hp, Hempty. cbn. now apply IH.
Qed.

Lemma run_reaches_timeout s polls :
  Exists (λ p, timeout < now p - start_time) polls → ∃ r, run' s polls = inr r.
Proof.
  intros Hex. revert s. induction Hex as [p polls Hp|p polls _ IH]; intros s.
  - cbn [Receiver.run]. rewrite (step_timed_out _ _ _ _ _ Hp). eauto.
  - cbn [Receiver.run]. destruct (step' s p) as [s'|r]; [apply IH|eauto].
Qed.

End ReceiverOutcomes.

Section ReceiverProperties.
Import Receiver.
Local Open Scope Q_scope.



(** The total timeout is a hard ceiling: once the clock has passed it at the
    top of a turn, the loop has ended, whatever arrived. *)
Theorem wait_for_data_ends_at_timeout
    (expected_size : Z) (timeout start_time first_time : Q) (polls : list poll) :
  Exists (λ p, timeout < now p - start_time) polls →
  ∃ c d, wait_for_data expected_size timeout start_time first_time polls = Some (c, d).
Proof.
  intros Hex. unfold wait_for_data.
  destruct (run_reaches_timeout expected_size timeout start_time
              (State [] first_time None) polls Hex) as ([c d] & Hr).
  rewrite Hr. eauto.
Qed.

Lemma wait_for_data_ends_at_timeout_witness :
  ∃ c d, wait_for_data 49152 60 0 (1 # 1000)
           [Poll 1 [0]%Z 0; Poll 2 [1]%Z 0; Poll 61 [2]%Z 0] = Some (c, d).
Proof.
  apply (wait_for_data_ends_at_timeout 49152 60 0 (1 # 1000)).
  apply Exists_cons_tl, Exists_cons_tl, Exists_cons_hd. reflexivity.
Defined.

(** A silent line is never reported as stalled or complete: while nothing
    has been read the loop keeps waiting, and it ends only at the total
    timeout, with an empty buffer. *)
Theorem wait_for_data_silent_line
    (expected_size : Z) (timeout start_time first_time : Q)
    (polls : list poll) (p : poll) (rest : list poll) :
  Forall (λ q, chunk q = []) polls →
  Forall (λ q, now q - start_time <= timeout) polls →
  wait_for_data expected_size timeout start_time first_time polls = None
  ∧ (timeout < now p - start_time →
     wait_for_data expected_size timeout start_time first_time (polls ++ p :: rest)
     = Some (TimedOut, [])).
Proof.
  intros Hsilent Hearly. unfold wait_for_data.
  pose proof (run_silent expected_size timeout start_time
                (State [] first_time None) polls eq_refl Hsilent Hearly) as Hrun.
  split; [now rewrite Hrun|].
  intros Hlate. rewrite run_app, Hrun. cbn [run].
  now rewrite (step_timed_out _ _ _ _ _ Hlate).
Qed.

Lemma wait_for_data_silent_line_witness :
  wait_for_data 49152 60 0 (1 # 1000) [Poll 1 [] 0; Poll 30 [] 0] = None
  ∧ wait_for_data 49152 60 0 (1 # 1000)
      ([Poll 1 [] 0; Poll 30 [] 0] ++ Poll 61 [7]%Z 0 :: [])
    = Some (TimedOut, []).
Proof.
  destruct (wait_for_data_silent_line 49152 60 0 (1 # 1000)
              [Poll 1 [] 0; Poll 30 [] 0] (Poll 61 [7]%Z 0) []) as [Hnone Hlate].
  - repeat constructor.
  - repeat constructor; discriminate.
  - split; [exact Hnone|]. apply Hlate. reflexivity.
Defined.

End ReceiverProperties.

(** ** Start-up message *)

Section StartupFacts.
Import Startup.
Local Open Scope Q_scope.

Lemma starts_with_spec needle haystack :
  starts_with needle haystack = true ↔ ∃ after, haystack = needle ++ after.
Proof.
  revert haystack. induction needle as [|a needle IH]; intros haystack.
  - cbn. split; [intros _; now exists haystack|reflexivity].
  - destruct haystack as [|b haystack]; cbn [starts_with].
    + split; [discriminate|intros [after H]; discriminate].
    + rewrite andb_true_iff, Z.eqb_eq, IH. split.
      * intros [-> [after ->]]. now exists after.
      * intros [after H]. inversion H; subst. split; [reflexivity|now exists after].
Qed.

Lemma contains_spec needle haystack :
  contains needle haystack = true ↔ occurs_in needle haystack.
Proof.
  unfold occurs_in. induction haystack as [|b haystack IH]; cbn [contains].
  - rewrite orb_false_r, starts_with_spec. split.
    + intros [after H]. exists [], after. exact H.
    + intros (before & after & H). destruct before; [now exists after|discriminate].
  - rewrite orb_true_iff, starts_with_spec, IH. split.
    + intros [[after H]|(before & after & H)].
      * exists [], after. exact H.
      * exists (b :: before), after. now rewrite H.
    + intros (before & after & H). destruct before as [|x before].
      * left. now exists after.
      * right. inversion H; subst. now exists before, after.
Qed.

Lemma occurs_in_app_r needle haystack more :
  occurs_in needle haystack → occurs_in needle (haystack ++ more).
Proof.
  intros (before & after & ->). exists before, (after ++ more).
  now rewrite <- !app_assoc.
Qed.

Lemma arrived_cons p polls : arrived (p :: polls) = chunk p ++ arrived polls.
Proof. reflexivity. Qed.

Lemma arrived_app a b : arrived (a ++ b) = arrived a ++ arrived b.
Proof. unfold arrived. now rewrite map_app, concat_app. Qed.

Variable timeout : Q.
Variable start_time : Q.

Abbreviation run' := (Startup.run timeout start_time).

Lemma startup_run_app buffer polls rest :
  run' buffer (polls ++ rest)
  = match run' buffer polls with
    | inl buffer' => run' buffer' rest
    | inr r => inr r
    end.
Proof.
  revert buffer. induction polls as [|p polls IH]; intros buffer; [reflexivity|].
  cbn [app Startup.run]. destruct (Startup.step timeout start_time buffer p);
    [apply IH|reflexivity].
Qed.

(** Before the timeout the loop has returned [True] exactly when the marker
    occurs in what has been read, and otherwise holds all of it. *)
Lemma startup_run_in_time buffer polls :
  contains marker buffer = false →
  Forall (λ p, now p - start_time < timeout) polls →
  run' buffer polls
  = if contains marker (buffer ++ arrived polls) then inr true
    else inl (buffer ++ arrived polls).
Proof.
  intros Hnot Hearly. revert buffer Hnot.
  induction Hearly as [|p polls Hp _ IH]; intros buffer Hnot.
  - cbn [Startup.run arrived map concat]. now rewrite app_nil_r, Hnot.
  - cbn [Startup.run]. unfold Startup.step. rewrite (gtb_true _ _ Hp).
    rewrite arrived_cons, app_assoc.
    destruct (chunk p) as [|b bs] eqn:Ec.
    + rewrite app_nil_r. now apply IH.
    + destruct (contains marker (buffer ++ b :: bs)) eqn:Efound.
      * assert (Hmore : contains marker ((buffer ++ b :: bs) ++ arrived polls) = true).
        { apply contains_spec, occurs_in_app_r, contains_spec. exact Efound. }
        now rewrite Hmore.
      * now apply IH.
Qed.

Lemma startup_true_occurs buffer polls :
  run' buffer polls = inr true →
  ∃ before after, polls = before ++ after
                  ∧ occurs_in marker (buffer ++ arrived before).
Proof.
  revert buffer. induction polls as [|p polls IH]; intros buffer; [discriminate|].
  cbn [Startup.run]. unfold Startup.step.
  destruct (Py.gtb timeout (now p - start_time)); [|discriminate].
  destruct (chunk p) as [|b bs] eqn:Ec.
  - intros H. destruct (IH _ H) as (before & after & -> & Hocc).
    exists (p :: before), after. split; [reflexivity|].
    now rewrite arrived_cons, Ec.
  - destruct (contains marker (buffer ++ b :: bs)) eqn:Efound.
    + intros _. exists [p], polls. split; [reflexivity|].
      rewrite arrived_cons, Ec. cbn [arrived map concat]. rewrite app_nil_r.
      now apply contains_spec.
    + intros H. destruct (IH _ H) as (before & after & -> & Hocc).
      exists (p :: before), after. split; [reflexivity|].
      now rewrite arrived_cons, Ec, app_assoc.
Qed.

End StartupFacts.

Section StartupProperties.
Import Startup.
Local Open Scope Q_scope.

(** Before its timeout [wait_for_startup] returns [True] as soon as the bytes
    read so far contain [start], also when the message is split over several
    reads, and keeps waiting as long as they do not; the first turn at or
    after the timeout then returns [False]. *)
Theorem wait_for_startup_finds_marker
    (timeout start_time : Q) (polls : list poll) (p : poll) (rest : list poll) :
  Forall (λ q, now q - start_time < timeout) polls →
  (occurs_in marker (arrived polls) →
   wait_for_startup timeout start_time (polls ++ rest) = Some true)
  ∧ (¬ occurs_in marker (arrived polls) →
     wait_for_startup timeout start_time polls = None
     ∧ (timeout <= now p - start_time →
        wait_for_startup timeout start_time (polls ++ p :: rest) = Some false)).
Proof.
  intros Hearly.
  pose proof (startup_run_in_time timeout start_time [] polls eq_refl Hearly) as Hrun.
  cbn [app] in Hrun. unfold wait_for_startup. split.
  - intros Hocc. apply contains_spec in Hocc.
    rewrite startup_run_app, Hrun, Hocc. reflexivity.
  - intros Hnot.
    assert (Hc : contains marker (arrived polls) = false).
    { destruct (contains marker (arrived polls)) eqn:E; [|reflexivity].
      apply contains_spec in E. contradiction. }
    split; [now rewrite Hrun, Hc|].
    intros Hlate. rewrite startup_run_app, Hrun, Hc. cbn [run].
    unfold step. now rewrite (gtb_false _ _ Hlate).
Qed.

Lemma wait_for_startup_finds_marker_witness :
  wait_for_startup 2 0 ([Poll 0 [10; 115; 116]%Z; Poll (1 # 10) [];
                         Poll (1 # 5) [97; 114; 116; 10]%Z] ++ [])
  = Some true
  ∧ wait_for_startup 2 0 [Poll 0 [115; 116]%Z; Poll 1 [97]%Z] = None
  ∧ wait_for_startup 2 0 ([Poll 0 [115; 116]%Z; Poll 1 [97]%Z]
                          ++ Poll 2 [114; 116]%Z :: [])
    = Some false.
Proof.
  split.
  - apply (wait_for_startup_finds_marker 2 0
             [Poll 0 [10; 115; 116]%Z; Poll (1 # 10) []; Poll (1 # 5) [97; 114; 116; 10]%Z]
             (Poll 2 []) []).
    + repeat constructor.
    + exists [10]%Z, [10]%Z. reflexivity.
  - destruct (wait_for_startup_finds_marker 2 0
                [Poll 0 [115; 116]%Z; Poll 1 [97]%Z] (Poll 2 [114; 116]%Z) [])
      as [_ Hnot].
    + repeat constructor.
    + destruct Hnot as [Hnone Hfalse].
      * intros Hocc. apply contains_spec in Hocc. discriminate Hocc.
      * split; [exact Hnone|]. apply Hfalse. discriminate.
Defined.

(** [wait_for_startup] returns [True] only if the bytes read up to that
    moment contain [start]. *)
Theorem wait_for_startup_true_is_sound
    (timeout start_time : Q) (polls : list poll) :
  wait_for_startup timeout start_time polls = Some true →
  ∃ before after, polls = before ++ after ∧ occurs_in marker (arrived before).
Proof.
  unfold wait_for_startup.
  destruct (run timeout start_time [] polls) as [b|r] eqn:E; [discriminate|].
  intros H. inversion H; subst.
  exact (startup_true_occurs timeout start_time [] polls E).
Qed.

Lemma wait_for_startup_true_is_sound_witness :
  ∃ before after,
    [Poll 0 [115; 116; 97]%Z; Poll 1 [114; 116]%Z; Poll 5 []] = before ++ after
    ∧ occurs_in marker (arrived before).
Proof.
  apply (wait_for_startup_true_is_sound 2 0). vm_compute. reflexivity.
Defined.

End StartupProperties.

(** ** CSV export *)

Section CsvFacts.
Import Csv.

Lemma mapM_lookup_rectangular (channels : list (list Z)) samples i :
  Vcd.rectangular samples channels → (i < samples)%nat →
  mapM (λ c : list Z, c !! i) channels = Some (map (λ c, nth i c 0) channels).
Proof.
  intros Hrect Hi. induction Hrect as [|c channels Hc _ IH]; [reflexivity|].
  cbn [mapM map]. rewrite (lookup_nth_in_range c i) by lia.
  cbn. rewrite IH. reflexivity.
Qed.

Lemma csv_row_rectangular sample_rate channels samples i :
  Vcd.rectangular samples channels → (i < samples)%nat →
  csv_row (1 / sample_rate) channels i = Some (row_of sample_rate channels i).
Proof.
  intros Hrect Hi. unfold csv_row.
  rewrite (mapM_lookup_rectangular _ _ _ Hrect Hi). reflexivity.
Qed.

Lemma mapM_csv_rows sample_rate channels samples start count :
  Vcd.rectangular samples channels →
  ((0 < count)%nat → (start + count <= samples)%nat) →
  mapM (csv_row (1 / sample_rate) channels) (seq start count)
  = Some (map (row_of sample_rate channels) (seq start count)).
Proof.
  intros Hrect. revert start. induction count as [|count IH]; intros start Hend;
    [reflexivity|].
  cbn [seq mapM map]. rewrite (csv_row_rectangular _ _ _ _ Hrect) by lia.
  cbn. rewrite IH by lia. reflexivity.
Qed.

(** Written batch after batch, the rows are those of the samples in order. *)
Lemma write_batches_rows sample_rate channels samples bs count first :
  Vcd.rectangular samples channels → (0 < bs)%nat →
  write_batches (1 / sample_rate) channels samples bs
                (map (λ k, k * bs)%nat (seq first count))
  = (map (row_of sample_rate channels)
         (seq (Nat.min (first * bs) samples)
              (Nat.min ((first + count) * bs) samples - Nat.min (first * bs) samples)),
     None).
Proof.
  intros Hrect Hbs. revert first.
  induction count as [|count IH]; intros first.
  - rewrite Nat.add_0_r, Nat.sub_diag. reflexivity.
  - cbn [seq map write_batches]. unfold batch_rows.
    rewrite (mapM_csv_rows _ _ _ _ _ Hrect) by lia.
    rewrite IH. f_equal. rewrite <- map_app. f_equal.
    replace (S first + count)%nat with (first + S count)%nat by lia.
    replace (S first * bs)%nat with (first * bs + bs)%nat by lia.
    set (a := (first * bs)%nat).
    set (x := Nat.min ((first + S count) * bs) samples).
    assert (Hx : (Nat.min (a + bs) samples <= x)%nat).
    { unfold x, a. apply Nat.min_le_compat_r. nia. }
    destruct (Nat.le_gt_cases samples a) as [Hfull|Hroom].
    + replace (Nat.min (a + bs) samples - a)%nat with 0%nat by lia.
      replace (x - Nat.min (a + bs) samples)%nat with 0%nat by lia.
      replace (x - Nat.min a samples)%nat with 0%nat by lia. reflexivity.
    + replace (Nat.min a samples) with a by lia.
      replace (x - a)%nat
        with ((Nat.min (a + bs) samples - a) + (x - Nat.min (a + bs) samples))%nat
        by lia.
      rewrite seq_app. f_equal. f_equal. lia.
Qed.

Lemma batch_starts_cover samples bs :
  (0 < bs)%nat → (samples <= (samples + bs - 1) / bs * bs)%nat.
Proof.
  intros Hbs. pose proof (Nat.div_mod (samples + bs - 1) bs ltac:(lia)) as Hdm.
  pose proof (Nat.mod_upper_bound (samples + bs - 1) bs ltac:(lia)). nia.
Qed.

Lemma csv_rows_any_batch sample_rate channels samples bs :
  Vcd.rectangular samples channels → (0 < bs)%nat →
  write_batches (1 / sample_rate) channels samples bs (batch_starts samples bs)
  = (map (row_of sample_rate channels) (seq 0 samples), None).
Proof.
  intros Hrect Hbs. unfold batch_starts.
  rewrite (write_batches_rows _ _ _ _ _ _ Hrect Hbs).
  pose proof (batch_starts_cover samples bs Hbs).
  cbn [Nat.mul Nat.add]. rewrite Nat.min_0_l, Nat.sub_0_r.
  now rewrite Nat.min_r by lia.
Qed.

End CsvFacts.

Section CsvProperties.
Import Csv.

(** Batching does not show in the file: for channels of equal length and a
    non-zero sample rate [export_to_csv] writes, without an exception, one
    row per sample in order; row [i] carries the time [i / sample_rate] and
    the value of every channel at sample [i], one column per name of the
    header row. *)
Theorem export_to_csv_rows (channels : list (list Z)) (sample_rate : Q) (samples : nat) :
  ¬ (sample_rate == 0)%Q → Vcd.rectangular samples channels →
  let written := length (hd [] channels) in
  export_to_csv channels sample_rate
  = (header channels, map (row_of sample_rate channels) (seq 0 written), None)
  ∧ length (header channels) = S (length channels)
  ∧ ∀ i, (i < written)%nat →
      (time_s (row_of sample_rate channels i)
       == inject_Z (Z.of_nat i) / sample_rate)%Q
      ∧ length (values (row_of sample_rate channels i)) = length channels
      ∧ ∀ c plane, channels !! c = Some plane →
          values (row_of sample_rate channels i) !! c = plane !! i.
Proof.
  intros Hnz Hrect written.
  assert (Hrect' : Vcd.rectangular written channels).
  { unfold written. destruct channels as [|c channels]; [constructor|].
    cbn [hd]. inversion Hrect; subst. exact Hrect. }
  split; [|split].
  - unfold export_to_csv. rewrite (Qeq_bool_false_nonzero _ Hnz). fold written.
    rewrite (csv_rows_any_batch _ _ _ _ Hrect') by (unfold batch_size; lia).
    reflexivity.
  - unfold header. cbn [length]. now rewrite length_map, length_seq.
  - intros i Hi. cbn [row_of time_s values]. split; [|split].
    + field. exact Hnz.
    + apply length_map.
    + intros c plane Hc. rewrite list_lookup_fmap, Hc. cbn.
      symmetry. apply lookup_nth_in_range.
      unfold Vcd.rectangular in Hrect'. rewrite Forall_lookup in Hrect'.
      rewrite (Hrect' _ _ Hc). exact Hi.
Qed.

Lemma export_to_csv_rows_witness :
  export_to_csv [[0; 1; 1]; [1; 1; 0]] 100000
  = (["time"; "CH0"; "CH1"]%string,
     map (row_of 100000 [[0; 1; 1]; [1; 1; 0]]) [0; 1; 2]%nat, None)
  ∧ map values (map (row_of 100000 [[0; 1; 1]; [1; 1; 0]]) [0; 1; 2]%nat)
    = [[0; 1]; [1; 1]; [1; 0]].
Proof.
  assert (Hnz : ¬ (100000 == 0)%Q) by discriminate.
  assert (Hrect : Vcd.rectangular 3 [[0; 1; 1]; [1; 1; 0]]) by (repeat constructor).
  destruct (export_to_csv_rows [[0; 1; 1]; [1; 1; 0]] 100000 3 Hnz Hrect)
    as (Hrows & _ & _).
  split; [exact Hrows|reflexivity].
Defined.

(** A channel shorter than the first one stops the export with an
    [IndexError]; the rows of the batch being built are not written. *)
Example export_to_csv_short_channel :
  export_to_csv [[0; 1; 1]; [1]] 100000
  = (["time"; "CH0"; "CH1"]%string, [], Some Py.IndexError).
Proof. vm_compute. reflexivity. Qed.

End CsvProperties.

(** ** VCD export: order of the blocks and reading the file back *)

Section VcdReaderFacts.
Import Vcd VcdReader.

Lemma time_step_ps_at_least_one sample_rate :
  (0 < sample_rate)%Q → (sample_rate <= inject_Z (10 ^ 12))%Q →
  1 <= time_step_ps sample_rate.
Proof.
  intros Hpos Hmax. rewrite (time_step_ps_floor _ Hpos).
  change 1 with (Qfloor 1). apply Qfloor_resp_le.
  apply Qle_shift_div_l; [exact Hpos|]. now rewrite Qmult_1_l.
Qed.

Lemma time_step_ps_zero sample_rate :
  (inject_Z (10 ^ 12) < sample_rate)%Q → time_step_ps sample_rate = 0.
Proof.
  intros Hmin.
  assert (Hpos : (0 < sample_rate)%Q)
    by (eapply Qlt_trans; [|exact Hmin]; reflexivity).
  rewrite (time_step_ps_floor _ Hpos).
  assert (H0 : (0 <= inject_Z (10 ^ 12) / sample_rate)%Q).
  { apply Qle_shift_div_l; [exact Hpos|]. rewrite Qmult_0_l. discriminate. }
  assert (H1 : (inject_Z (10 ^ 12) / sample_rate < 1)%Q).
  { apply Qlt_shift_div_r; [exact Hpos|]. now rewrite Qmult_1_l. }
  pose proof (Qfloor_resp_le _ _ H0) as Hlo. change (Qfloor 0) with 0 in Hlo.
  pose proof (Qfloor_le (inject_Z (10 ^ 12) / sample_rate)) as Hfl.
  assert (Hhi : (inject_Z (Qfloor (inject_Z (10 ^ 12) / sample_rate)) < inject_Z 1)%Q)
    by (eapply Qle_lt_trans; [exact Hfl|exact H1]).
  rewrite <- Zlt_Qlt in Hhi. lia.
Qed.

(** The blocks of the loop come in the order of the samples. *)
Lemma export_samples_sorted step channels prev start count :
  0 < step →
  StronglySorted Z.lt
    (timestamps (fst (export_samples step channels prev (seq start count))))
  ∧ Forall (λ t, Z.of_nat start * step <= t)
      (timestamps (fst (export_samples step channels prev (seq start count)))).
Proof.
  intros Hstep. revert prev start.
  induction count as [|count IH]; intros prev start;
    [split; constructor|].
  assert (Hnext : ∀ prev',
    StronglySorted Z.lt
      (Z.of_nat start * step
       :: timestamps (fst (export_samples step channels prev' (seq (S start) count))))
    ∧ Forall (λ t, Z.of_nat start * step <= t)
        (timestamps (fst (export_samples step channels prev' (seq (S start) count))))).
  { intros prev'. destruct (IH prev' (S start)) as [Hs Hb].
    assert (Hlt : Forall (λ t, Z.of_nat start * step < t)
              (timestamps (fst (export_samples step channels prev' (seq (S start) count)))))
      by (eapply Forall_impl; [exact Hb|]; cbn; intros; nia).
    split; [constructor; assumption|].
    eapply Forall_impl; [exact Hlt|]. cbn. intros; lia. }
  cbn [seq export_samples].
  destruct (has_change prev channels start) as [[|]|e]; [| |split; constructor].
  - pose proof (write_changes_no_timestamps prev channels start 0) as Hw.
    destruct (write_changes 0 prev channels start) as [[lines prev'] e].
    cbn [fst] in Hw. destruct e as [e|].
    + cbn [fst]. change (Timestamp ?t :: ?l) with ([Timestamp t] ++ l).
      rewrite timestamps_app, Hw. cbn.
      split; repeat constructor. lia.
    + destruct (Hnext prev') as [Hs Hb].
      destruct (export_samples step channels prev' (seq (S start) count))
        as [lines' e'].
      cbn [fst] in *. change (Timestamp ?t :: ?l) with ([Timestamp t] ++ l).
      rewrite !timestamps_app, Hw. cbn [app timestamps omap].
      split; [exact Hs|]. constructor; [lia|exact Hb].
  - destruct (Hnext prev) as [Hs Hb]. split; [|exact Hb].
    now inversion Hs.
Qed.

(** With a step of 0 every block is written at time 0. *)
Lemma export_samples_all_zero channels prev indices :
  Forall (λ t, t = 0) (timestamps (fst (export_samples 0 channels prev indices))).
Proof.
  pose proof (export_samples_timestamps_of_samples 0 channels prev indices) as H.
  eapply Forall_impl; [exact H|]. cbn. intros t (i & _ & Ht). lia.
Qed.






End VcdReaderFacts.

Section VcdProperties.
Import Vcd VcdReader.

(** For a sample rate in (0, 10^12] Hz whose sample time is a finite float
    the step is at least 1 ps and the times of the blocks of the VCD body
    increase strictly, whatever the channels hold.  Above 10^12 Hz the step
    is 0 and every block is written at time 0. *)
Theorem export_to_vcd_times_increase (channels : list (list Z)) (sample_rate : Q) :
  (0 < sample_rate)%Q →
  (inject_Z (10 ^ 12) / sample_rate < Py.float_overflow)%Q →
  let times := timestamps (fst (export_body channels sample_rate)) in
  ((sample_rate <= inject_Z (10 ^ 12))%Q →
   1 <= time_step_ps sample_rate ∧ StronglySorted Z.lt times)
  ∧ ((inject_Z (10 ^ 12) < sample_rate)%Q →
     time_step_ps sample_rate = 0 ∧ Forall (λ t, t = 0) times).
Proof.
  intros Hrate Hfinite times. unfold times, export_body.
  rewrite (Qeq_bool_false_pos _ Hrate).
  rewrite is_inf_false; [|apply Qle_shift_div_l; [exact Hrate|discriminate]
                          |exact Hfinite].
  split.
  - intros Hmax. pose proof (time_step_ps_at_least_one _ Hrate Hmax) as Hstep.
    split; [exact Hstep|].
    destruct (export_samples_sorted (time_step_ps sample_rate) channels
                (initial_prev channels) 1 (length (hd [] channels) - 1))
      as [Hsorted Hbound]; [lia|].
    destruct (export_samples (time_step_ps sample_rate) channels
                (initial_prev channels) (seq 1 (length (hd [] channels) - 1)))
      as [lines e].
    cbn [fst] in *. change (Timestamp 0 :: ?l) with ([Timestamp 0] ++ l).
    rewrite !timestamps_app, timestamps_initial_values. cbn [app timestamps omap].
    constructor; [exact Hsorted|].
    eapply Forall_impl; [exact Hbound|]. cbn. intros; lia.
  - intros Hmin. pose proof (time_step_ps_zero _ Hmin) as Hstep.
    split; [exact Hstep|]. rewrite Hstep.
    pose proof (export_samples_all_zero channels (initial_prev channels)
                  (seq 1 (length (hd [] channels) - 1))) as Hzero.
    destruct (export_samples 0 channels (initial_prev channels)
                (seq 1 (length (hd [] channels) - 1))) as [lines e].
    cbn [fst] in *. change (Timestamp 0 :: ?l) with ([Timestamp 0] ++ l).
    rewrite !timestamps_app, timestamps_initial_values. cbn [app timestamps omap].
    constructor; [reflexivity|exact Hzero].
Qed.

Lemma export_to_vcd_times_increase_witness :
  time_step_ps 6000000 = 166666
  ∧ StronglySorted Z.lt
      (timestamps (fst (export_body [[0; 1; 1; 0]; [1; 1; 0; 0]] 6000000))).
Proof.
  assert (Hrate : (0 < 6000000)%Q) by reflexivity.
  assert (Hfinite : (inject_Z (10 ^ 12) / 6000000 < Py.float_overflow)%Q)
    by (vm_compute; reflexivity).
  assert (Hmax : (6000000 <= inject_Z (10 ^ 12))%Q) by discriminate.
  destruct (export_to_vcd_times_increase [[0; 1; 1; 0]; [1; 1; 0; 0]] 6000000
              Hrate Hfinite) as [Hinc _].
  destruct (Hinc Hmax) as [_ Hsorted].
  split; [reflexivity|exact Hsorted].
Defined.



End VcdProperties.

(** ** The frequency report of [set_frequency.py] *)

Section FrequencyInfo.
Local Open Scope Q_scope.



End FrequencyInfo.

(** ** Command line: the sample rates [parse_sample_rate] accepts *)

Section ParseFacts.
Import ParseSampleRate.

Lemma str_eqb_eq s t : str_eqb s t = true → s = t.
Proof.
  revert t. induction s as [|a s IH]; intros [|b t]; cbn; try discriminate;
    [reflexivity|].
  intros H. apply andb_prop in H as [Hab Hst].
  apply Ascii.eqb_eq in Hab. subst. f_equal. apply IH. exact Hst.
Qed.

(** A string that ends in [Z] is no key of either table. *)
Lemma preset_ends_in_Z table body :
  incl table presets → preset table (body ++ str "Z") = None.
Proof.
  intros Hincl. induction table as [|[name value] table IH]; [reflexivity|].
  cbn [preset].
  destruct (str_eqb (body ++ str "Z") (str name)) eqn:E.
  - exfalso. apply str_eqb_eq in E.
    assert (Hlast : last (str name) = Some "Z"%char)
      by (rewrite <- E; apply last_snoc).
    assert (Hin : In (name, value) presets) by (apply Hincl; now left).
    unfold presets in Hin. cbn [In] in Hin.
    repeat (destruct Hin as [Hin|Hin];
            [inversion Hin; subst; cbn in Hlast; discriminate|]).
    exact Hin.
  - apply IH. intros x Hx. apply Hincl. now right.
Qed.

Lemma endswith_app s suffix : endswith (s ++ suffix) suffix = true.
Proof.
  unfold endswith. rewrite rev_app_distr.
  induction (rev suffix) as [|a l IH]; [reflexivity|].
  cbn. now rewrite Ascii.eqb_refl.
Qed.

Lemma drop_last_app s suffix : drop_last (length suffix) (s ++ suffix) = s.
Proof.
  unfold drop_last. apply take_app_length'. rewrite length_app. lia.
Qed.

(** With a unit before [HZ] the number handed to [float] keeps the unit. *)
Lemma parse_unit_hertz {F : Type} (float : list ascii → option F) times table
      rate_str body unit :
  incl table presets → rejects_unit_letters float →
  unit = "M"%char ∨ unit = "K"%char →
  upper (strip rate_str) = body ++ unit :: str "HZ" →
  parse float times table rate_str = None.
Proof.
  intros Hincl Hfloat Hunit Hnorm. unfold parse. rewrite Hnorm.
  replace (body ++ unit :: str "HZ") with ((body ++ unit :: str "H") ++ str "Z")
    by (rewrite <- app_assoc; reflexivity).
  rewrite (preset_ends_in_Z _ _ Hincl).
  assert (HM : endswith ((body ++ unit :: str "H") ++ str "Z") (str "M") = false)
    by (unfold endswith; rewrite rev_app_distr; reflexivity).
  assert (HK : endswith ((body ++ unit :: str "H") ++ str "Z") (str "K") = false)
    by (unfold endswith; rewrite rev_app_distr; reflexivity).
  rewrite HM, HK.
  replace ((body ++ unit :: str "H") ++ str "Z") with ((body ++ [unit]) ++ str "HZ")
    by (rewrite <- !app_assoc; reflexivity).
  rewrite endswith_app.
  change 2%nat with (length (str "HZ")). rewrite drop_last_app.
  rewrite Hfloat; [reflexivity|].
  destruct Hunit as [->| ->]; [left|right]; apply (endswith_app body).
Qed.

Lemma digits_rejects_letter body a value :
  (nat_of_ascii a < 48 ∨ 57 < nat_of_ascii a)%nat →
  digits value (body ++ [a]) = None.
Proof.
  intros Ha. revert value. induction body as [|b body IH]; intros value; cbn [app digits].
  - destruct ((48 <=? nat_of_ascii a)%nat && (nat_of_ascii a <=? 57)%nat) eqn:E;
      [|reflexivity].
    apply andb_prop in E as [E1 E2].
    apply Nat.leb_le in E1. apply Nat.leb_le in E2. lia.
  - destruct ((48 <=? nat_of_ascii b)%nat && (nat_of_ascii b <=? 57)%nat);
      [apply IH|reflexivity].
Qed.

Lemma endswith_char s a : endswith s [a] = true → ∃ body, s = body ++ [a].
Proof.
  unfold endswith. cbn [rev app]. intros H.
  destruct (rev s) as [|b l] eqn:E; [discriminate|].
  cbn in H. rewrite andb_true_r in H. apply Ascii.eqb_eq in H. subst b.
  exists (rev l). rewrite <- (rev_involutive s), E. reflexivity.
Qed.

Lemma decimal_rejects_unit_letters : rejects_unit_letters decimal.
Proof.
  intros s Hs.
  assert (Hlast : ∃ body a, s = body ++ [a]
                            ∧ (nat_of_ascii a < 48 ∨ 57 < nat_of_ascii a)%nat).
  { destruct Hs as [Hs|Hs]; apply endswith_char in Hs as [body ->];
      eexists _, _; (split; [reflexivity|]); right; vm_compute; lia. }
  destruct Hlast as (body & a & -> & Ha).
  unfold decimal. destruct (body ++ [a]) eqn:E.
  - reflexivity.
  - rewrite <- E, digits_rejects_letter by exact Ha. reflexivity.
Qed.

End ParseFacts.

Section ParseProperties.
Import ParseSampleRate.

(** Every preset of [parse_sample_rate] is a rate the hardware produces
    exactly: the name is read as its rate whatever [float] does, the rate
    divides the 27 MHz clock, both implementations of [set_sample_rate]
    compute the quotient as divider, and the realized rate is the preset.
    The presets of [set_sample_rate.py] are among those of [read_data.py]. *)
Theorem presets_are_exact {F : Type} (float : list ascii → option F)
        (times : F → Z → F) (name : string) (rate : Z) :
  In (name, rate) presets →
  parse_sample_rate float times (str name) = Some (inl rate)
  ∧ (In (name, rate) script_presets →
     script_parse_sample_rate float times (str name) = Some (inl rate))
  ∧ incl script_presets presets
  ∧ 0 < rate ∧ 27000000 mod rate = 0
  ∧ ReadData.sample_rate_divider (inject_Z rate) = 27000000 / rate
  ∧ SetSampleRateScript.sample_rate_divider (inject_Z rate) = 27000000 / rate
  ∧ (realized_rate (27000000 / rate) == inject_Z rate)%Q.
Proof.
  intros Hin.
  assert (Hincl : incl script_presets presets).
  { intros x Hx. unfold script_presets in Hx. cbn [In] in Hx. unfold presets.
    repeat (destruct Hx as [<-|Hx]; [cbn; tauto|]). contradiction. }
  unfold presets in Hin. cbn [In] in Hin.
  repeat (destruct Hin as [Hin|Hin];
          [inversion Hin; subst; clear Hin;
           split; [vm_compute; reflexivity|];
           split; [intros Hs; unfold script_presets in Hs; cbn [In] in Hs;
                   first [vm_compute; reflexivity
                         |exfalso;
                          repeat (destruct Hs as [Hs|Hs]; [discriminate Hs|]);
                          exact Hs]|];
           split; [exact Hincl|];
           repeat split; vm_compute; reflexivity|]).
  contradiction.
Qed.

Lemma presets_are_exact_witness :
  parse_sample_rate decimal (λ f k, f * inject_Z k)%Q (str "6.75M")
  = Some (inl 6750000)
  ∧ ReadData.sample_rate_divider 6750000 = 4
  ∧ (realized_rate 4 == 6750000)%Q.
Proof.
  assert (Hin : In ("6.75M"%string, 6750000) presets)
    by (unfold presets; cbn; tauto).
  destruct (presets_are_exact decimal (λ f k, f * inject_Z k)%Q "6.75M" 6750000 Hin)
    as (Hparse & _ & _ & _ & _ & Hdiv & _ & Hreal).
  split; [exact Hparse|]. split; [exact Hdiv|exact Hreal].
Defined.

(** A rate written with the unit [MHz] or [kHz], in any case and with
    blanks around, is rejected by both parsers: the last two letters are cut
    off and what is left, which still ends in [M] or [K], goes to [float],
    which raises [ValueError] on it.  Only [M], [K] and [Hz] work as units. *)
Theorem parse_sample_rate_rejects_unit_hertz
        {F : Type} (float : list ascii → option F) (times : F → Z → F)
        (rate_str body : list ascii) :
  rejects_unit_letters float →
  upper (strip rate_str) = body ++ str "MHZ"
  ∨ upper (strip rate_str) = body ++ str "KHZ" →
  parse_sample_rate float times rate_str = None
  ∧ script_parse_sample_rate float times rate_str = None.
Proof.
  intros Hfloat Hnorm.
  assert (Hscript : incl script_presets presets).
  { intros x Hx. unfold script_presets in Hx. cbn [In] in Hx. unfold presets.
    repeat (destruct Hx as [<-|Hx]; [cbn; tauto|]). contradiction. }
  assert (Hself : incl presets presets) by (intros x Hx; exact Hx).
  destruct Hnorm as [Hnorm|Hnorm]; split;
    eapply parse_unit_hertz; try exact Hnorm; try exact Hfloat;
    try assumption; tauto.
Qed.

Lemma parse_sample_rate_rejects_unit_hertz_witness :
  parse_sample_rate decimal (λ f k, f * inject_Z k)%Q (str " 10kHz ") = None
  ∧ parse_sample_rate decimal (λ f k, f * inject_Z k)%Q (str "10k")
    = Some (inl 10000)
  ∧ parse_sample_rate decimal (λ f k, f * inject_Z k)%Q (str "20k")
    = Some (inr (20 * inject_Z 1000)%Q).
Proof.
  split; [|split; vm_compute; reflexivity].
  apply (parse_sample_rate_rejects_unit_hertz decimal (λ f k, f * inject_Z k)%Q
           (str " 10kHz ") (str "10")).
  - exact decimal_rejects_unit_letters.
  - right. vm_compute. reflexivity.
Defined.

End ParseProperties.

(** ** Test pattern *)

Section TestDataFacts.
Import TestData.

Lemma test_data_length base_index : length (test_data base_index) = 256%nat.
Proof. unfold test_data. now rewrite length_map, length_seq. Qed.

Lemma ramp_length : length ramp = 256%nat.
Proof. unfold ramp. now rewrite length_map, length_seq. Qed.

Lemma test_data_multiple k : test_data (256 * k) = ramp.
Proof.
  unfold test_data, ramp. apply map_ext_in. intros i Hi. apply in_seq in Hi.
  rewrite Z.add_comm, Z.mul_comm, Z_mod_plus_full. apply Z.mod_small. lia.
Qed.

Lemma ramp_lookup k : (k < 256)%nat → ramp !! k = Some (Z.of_nat k).
Proof.
  intros Hk. unfold ramp.
  change (map Z.of_nat (seq 0 256)) with (Z.of_nat <$> seq 0 256).
  rewrite list_lookup_fmap, lookup_seq_lt by exact Hk. reflexivity.
Qed.

(** [base_index] stays a multiple of 256, so every block is the ramp. *)
Lemma run_blocks start_time passes :
  ∀ s, (∃ k, base_index s = 256 * k) →
    Forall (λ block, block = ramp) (fst (run start_time s passes))
    ∧ ∃ k, base_index (snd (run start_time s passes)) = 256 * k.
Proof.
  induction passes as [|p passes IH]; intros s [k Hk].
  - split; [constructor|exists k; exact Hk].
  - cbn [run]. unfold step.
    destruct (stop_set p); [split; [constructor|exists k; exact Hk]|].
    destruct (Py.gtb (now p - start_time) 300);
      [split; [constructor|exists k; exact Hk]|].
    rewrite Hk, (test_data_multiple k).
    destruct (bytes_written p) as [n|];
      [|split; [repeat constructor|exists k; exact Hk]].
    destruct (0 <? n).
    + specialize (IH (State (total_sent s + n) (256 * k + Z.of_nat (length ramp)))).
      destruct IH as [Hblocks Hbase].
      { exists (k + 1). cbn [base_index]. rewrite ramp_length. lia. }
      destruct (run start_time _ passes) as [more final].
      cbn [fst snd app] in *. split; [constructor; [reflexivity|exact Hblocks]|].
      exact Hbase.
    + destruct (IH s (ex_intro _ k Hk)) as [Hblocks Hbase].
      destruct (run start_time s passes) as [more final].
      cbn [fst snd app] in *. split; [constructor; [reflexivity|exact Hblocks]|].
      exact Hbase.
Qed.

(** Ramps in a row count from 0 to 255 again and again. *)
Lemma ramps_cycle blocks :
  Forall (λ block, block = ramp) blocks →
  ∀ k, (k < length (concat blocks))%nat →
    concat blocks !! k = Some (Z.of_nat k mod 256).
Proof.
  induction 1 as [|block blocks -> _ IH]; intros k Hk; [cbn in Hk; lia|].
  cbn [concat] in *. rewrite length_app, ramp_length in Hk.
  destruct (Nat.lt_ge_cases k 256) as [Hlt|Hge].
  - rewrite lookup_app_l by (rewrite ramp_length; exact Hlt).
    rewrite (ramp_lookup _ Hlt), Z.mod_small by lia. reflexivity.
  - rewrite lookup_app_r by (rewrite ramp_length; exact Hge).
    rewrite ramp_length, IH by lia. f_equal.
    replace (Z.of_nat k) with (Z.of_nat (k - 256) + 1 * 256) by lia.
    now rewrite Z_mod_plus_full.
Qed.

End TestDataFacts.

Section TestDataProperties.
Import TestData.

(** Whatever the port and the clock do, every block
    [send_test_data_continuous] hands to [ser.write] is the 256 bytes
    0, 1, ..., 255: [base_index] only grows by 256 and never shows in the
    data, even after a write that took only part of a block.  The bytes
    handed over, in a row, count [k mod 256]. *)
Theorem send_test_data_blocks_are_ramps (start_time : Q) (passes : list pass) :
  let blocks := fst (send_test_data_continuous start_time passes) in
  Forall (λ block, block = ramp) blocks
  ∧ (∀ k, (k < length (concat blocks))%nat →
       concat blocks !! k = Some (Z.of_nat k mod 256))
  ∧ base_index (snd (send_test_data_continuous start_time passes)) mod 256 = 0.
Proof.
  intros blocks.
  destruct (run_blocks start_time passes (State 0 0)) as [Hblocks [k Hbase]];
    [exists 0; reflexivity|].
  split; [exact Hblocks|]. split; [apply ramps_cycle; exact Hblocks|].
  unfold send_test_data_continuous. rewrite Hbase.
  rewrite Z.mul_comm. apply Z_mod_mult.
Qed.

(** A write that takes 100 bytes of the first block is followed by a block
    that starts at 0 again. *)
Example send_test_data_after_partial_write :
  send_test_data_continuous 0 [Pass false 1 (Some 100); Pass false 2 (Some 256);
                               Pass true 3 None]
  = ([ramp; ramp], State 356 512).
Proof. vm_compute. reflexivity. Qed.

End TestDataProperties.
